(** * nem-services: the transaction builder and its fee rules

    A shallow embedding of [src/transactions.ts] (class [Transactions]) and of
    the part of [src/wallet.ts] it reads.  JavaScript numbers that the code keeps
    integral are integers of [Z]; fractional quantities (XEM amounts, the
    arguments of [Math.log]) are rationals of [Q]; non-finite doubles are outside
    the model.  Objects are records, the asset registry is a finite map keyed by
    asset name, and the clock read by every constructor is explicit state. *)

From Stdlib Require Import ZArith QArith Qround Lia.
From Stdlib Require Import Sorted.
From stdpp Require Import base strings list gmap pretty sorting.

Close Scope Q_scope.
Open Scope Z_scope.

(** ** JavaScript operations used by the source *)

Module Js.

(** [ToInt32]: the signed 32-bit reading of a number, as the bitwise
    operators apply it to their operands. *)
Definition ToInt32 (z : Z) : Z := (z + 2 ^ 31) mod 2 ^ 32 - 2 ^ 31.

(** [a | b] *)
Definition bitor (a b : Z) : Z := Z.lor (ToInt32 a) (ToInt32 b).

(** [a || b] on numbers: [0] is the falsy one. *)
Definition or_else (a b : Z) : Z := if a =? 0 then b else a.

(** [null] read as a number is [0]. *)
Definition number_of_nullable (o : option Z) : Z := default 0 o.

Definition Math_floor (q : Q) : Z := Qfloor q.
Definition Math_ceil (q : Q) : Z := Qceiling q.
(** [Math.round]: halves go up. *)
Definition Math_round (q : Q) : Z := Qfloor (q + (1 # 2))%Q.
Definition Math_max (a b : Z) : Z := Z.max a b.

(** [s.toUpperCase()] on the ASCII letters. *)
Definition upper_ascii (c : Ascii.ascii) : Ascii.ascii :=
  let n := Ascii.N_of_ascii c in
  if ((97 <=? n) && (n <=? 122))%N then Ascii.ascii_of_N (n - 32) else c.

Fixpoint toUpperCase (s : string) : string :=
  match s with
  | EmptyString => EmptyString
  | String c r => String (upper_ascii c) (toUpperCase r)
  end.

(** [s.replace(/-/g, "")] *)
Fixpoint remove_dashes (s : string) : string :=
  match s with
  | EmptyString => EmptyString
  | String c r =>
      if Ascii.eqb c (Ascii.ascii_of_N 45) then remove_dashes r
      else String c (remove_dashes r)
  end.

(** [a < b] on strings: lexicographic on the code units. *)
Definition string_lt (a b : string) : bool := String.ltb a b.

(** [s.length] *)
Definition length (s : string) : Z := Z.of_nat (String.length s).

(** [l.sort(compareFn)].  The language fixes the result for a consistent
    comparator: the stable sorted arrangement, in which [a] precedes [b] when
    [compareFn a b <= 0] and entries that compare equal keep their order.
    Inserting each entry in front of the sorted rest computes it. *)
Definition keeps_order {A} (compareFn : A -> A -> Z) : relation A :=
  fun a b => compareFn a b <= 0.

Fixpoint sort_insert {A} (compareFn : A -> A -> Z) (x : A) (l : list A)
    : list A :=
  match l with
  | [] => [x]
  | y :: rest =>
      if compareFn x y <=? 0 then x :: l
      else y :: sort_insert compareFn x rest
  end.

Fixpoint Array_sort {A} (compareFn : A -> A -> Z) (l : list A) : list A :=
  match l with
  | [] => []
  | x :: rest => sort_insert compareFn x (Array_sort compareFn rest)
  end.

End Js.

(** What the JavaScript host provides and the model leaves open: the
    transcendental [Math.log], the locale-dependent [localeCompare] and the
    reading of a string as a number followed by [~~]. *)
Class JsHost := {
  Math_log : Q -> Q;
  localeCompare : string -> string -> Z;
  ToInt32_of_string : string -> Z
}.

(** ** Data model *)

Record MosaicId := { namespaceId : string; name : string }.

Record Attachment := { mosaicId : MosaicId; quantity : Z }.

Record Property := { prop_name : string; prop_value : string }.

Record Levy := {
  levy_feeType : Z;
  levy_address : string;
  levy_mosaic : option MosaicId;
  levy_fee : Z
}.

(** The definition part of a registry entry; only [properties] is read by the
    fee computation. *)
Record MosaicDefinition := { properties : list Property }.

Record MosaicDefinitionMetaDataPair := {
  mosaicDefinition : MosaicDefinition;
  supply : Z
}.

Record Message := { msg_type : Z; payload : string }.

Record Account := { publicKey : string }.

Record Common := { privateKey : string; password : string }.

Record Wallet := { network : Z; node : string }.

(** The fields of [tx] that [prepareTransfer] and [prepareApostilleTransfer]
    read; [mosaics = None] is a missing or [null] attachment array. *)
Record TransferTx := {
  tr_isMultisig : bool;
  tr_multisigAccount : Account;
  tr_recipient : string;
  tr_amount : Q;
  tr_message : string;
  tr_mosaics : option (list Attachment)
}.

(** The [tx] of the two aggregate-modification constructors and an entry of
    their [signatoryArray]; [minCosigs = None] is [null]. *)
Record AggregateTx := { multisigPubKey : string; minCosigs : option Z }.

Record Signatory := { sig_type : Z; pubKey : string }.

Record Namespace := { fqn : string }.

Record NamespaceTx := {
  ns_isMultisig : bool;
  ns_multisigAccount : Account;
  ns_rentalFeeSink : string;
  ns_namespaceParent : option Namespace;
  ns_namespaceName : string
}.

(** A value of the property mapping of a mosaic definition, and its
    [toString()]. *)
Inductive PropertyValue :=
  | PNumber (z : Z)
  | PBoolean (b : bool)
  | PString (s : string).

Definition PropertyValue_toString (v : PropertyValue) : string :=
  match v with
  | PNumber z => pretty z
  | PBoolean true => "true"
  | PBoolean false => "false"
  | PString s => s
  end.

(** [properties] lists the keys of the mapping in the order of
    [Object.keys]. *)
Record MosaicDefinitionTx := {
  md_isMultisig : bool;
  md_multisigAccount : Account;
  md_mosaicFeeSink : string;
  md_namespaceParent : Namespace;
  md_mosaicName : string;
  md_mosaicDescription : string;
  md_properties : list (string * PropertyValue);
  md_levy : Levy
}.

Record MosaicSupplyTx := {
  su_isMultisig : bool;
  su_multisigAccount : Account;
  su_mosaic : MosaicId;
  su_supplyType : Z;
  su_delta : Z
}.

Record ImportanceTx := {
  im_isMultisig : bool;
  im_multisigAccount : Account;
  im_remoteAccount : string;
  im_mode : Z
}.

Record SignatureTx := { multisigAccountAddress : string; hash : string }.

(** The library [nem-utils]: network and transaction-type constants, and the
    helper functions the builder calls. *)
Class NemUtils := {
  Network_Mainnet_id : Z;
  Network_Testnet_id : Z;
  TransactionTypes_Transfer : Z;
  TransactionTypes_ImportanceTransfer : Z;
  TransactionTypes_MultisigModification : Z;
  TransactionTypes_MultisigSignature : Z;
  TransactionTypes_MultisigTransaction : Z;
  TransactionTypes_ProvisionNamespace : Z;
  TransactionTypes_MosaicDefinition : Z;
  TransactionTypes_MosaicSupply : Z;
  helpers_mosaicIdToName : MosaicId -> string;
  helpers_calcXemEquivalent : Q -> Z -> Z -> Z -> Q;
  helpers_calcMinFee : Q -> Z;
  helpers_fixPrivateKey : string -> string;
  helpers_prepareMessage : Common -> TransferTx -> Message;
  KeyPair_publicKey : string -> string;
  Address_toAddress : string -> Z -> string
}.

(** ** The clock

    [helpers.createNEMTimeStamp()] reads the time source.  The state is the
    stream of readings still to come; a call takes the first one. *)

Definition Clock := nat -> Z.

Definition M (A : Type) : Type := Clock -> A * Clock.

Definition ret {A} (a : A) : M A := fun c => (a, c).

Definition bind {A B} (m : M A) (k : A -> M B) : M B :=
  fun c => let '(a, c') := m c in k a c'.

Notation "'let*' x ':=' m 'in' k" := (bind m (fun x => k))
  (at level 10, x name, m at level 100, k at level 200).

Definition createNEMTimeStamp : M Z :=
  fun c => (c 0%nat, fun n => c (S n)).

(** The clock that reads [t] at every call. *)
Definition frozen (t : Z) : Clock := fun _ => t.

(** The clock that reads [t], [t+1], [t+2], ... *)
Definition ticking (t : Z) : Clock := fun n => t + Z.of_nat n.

(** ** Built transactions

    [Object.assign(data, custom)] puts the fields of the kind beside the common
    header.  No kind has a field named like one of the header, so an entity is
    its header, its fee and the remaining fields of its kind. *)

Record CommonData := {
  type : Z;
  version : Z;
  signer : string;
  timeStamp : Z;
  deadline : Z
}.

Record Modification := { modificationType : Z; cosignatoryAccount : string }.

Record MinCosignatories := { relativeChange : option Z }.

Record LevyData := {
  ld_type : Z;
  ld_recipient : string;
  ld_mosaicId : option MosaicId;
  ld_fee : Z
}.

Record DefinitionData := {
  dd_creator : string;
  dd_id : MosaicId;
  dd_description : string;
  dd_properties : list Property;
  dd_levy : option LevyData
}.

Inductive Entity : Type :=
  | mkEntity (data : CommonData) (fee : Z) (custom : Custom)
with Custom : Type :=
  | TransferFields (recipient : string) (amount : Q) (message : Message)
      (mosaics : option (list Attachment))
  | MultisigFields (otherTrans : Entity)
  | ModificationFields (modifications : list Modification)
      (minCosignatories : option MinCosignatories)
  | NamespaceFields (rentalFeeSink : string) (rentalFee : Z)
      (parent : option string) (newPart : string)
  | MosaicDefinitionFields (creationFeeSink : string) (creationFee : Z)
      (definition : DefinitionData)
  | MosaicSupplyFields (id : MosaicId) (supplyType : Z) (delta : Z)
  | ImportanceFields (remoteAccount : string) (mode : Z)
  | SignatureFields (otherHash : string) (otherAccount : string).

Definition data_of (e : Entity) : CommonData := let '(mkEntity d _ _) := e in d.
Definition fee_of (e : Entity) : Z := let '(mkEntity _ f _) := e in f.
Definition custom_of (e : Entity) : Custom := let '(mkEntity _ _ c) := e in c.

(** The entity wrapped in [otherTrans], when there is one. *)
Definition otherTrans_of (e : Entity) : option Entity :=
  match custom_of e with
  | MultisigFields inner => Some inner
  | _ => None
  end.

(** The modification list of an aggregate modification; empty for the other
    kinds. *)
Definition modifications_of (e : Entity) : list Modification :=
  match custom_of e with
  | ModificationFields ms _ => ms
  | _ => []
  end.

(** ** Fee of the attached mosaics *)

(** The three variables [calculateMosaicsFee] declares before its loop. *)
Record FeeState := {
  totalFee : Z;
  fee : Z;
  supplyRelatedAdjustment : Z
}.

Section Transactions.

Context {host : JsHost} {nem : NemUtils}.
Variable wallet : Wallet.

Definition CURRENT_NETWORK_VERSION (val : Z) : Z :=
  if network wallet =? Network_Mainnet_id then Js.bitor 0x68000000 val
  else if network wallet =? Network_Testnet_id then Js.bitor 0x98000000 val
  else Js.bitor 0x60000000 val.

Definition CREATE_DATA (txtype : Z) (senderPublicKey : string)
    (timeStamp due version : Z) : CommonData :=
  {| type := txtype;
     version := Js.or_else version (CURRENT_NETWORK_VERSION 1);
     signer := senderPublicKey;
     timeStamp := timeStamp;
     deadline := timeStamp + due * 60 |}.

(** Lines 79-81: the [divisibility] property of a registry entry, [0] unless
    exactly one property has that name. *)
Definition divisibility_of (pair : MosaicDefinitionMetaDataPair) : Z :=
  let divisibilityProperties :=
    filter (fun w => prop_name w = "divisibility")
      (properties (mosaicDefinition pair)) in
  match divisibilityProperties with
  | [p] => ToInt32_of_string (prop_value p)
  | _ => 0
  end.

(** One turn of the loop of [calculateMosaicsFee]; [None] is the
    [return -1] of an asset missing from the registry.  The small-business
    branch assigns [fee] only: [supplyRelatedAdjustment] keeps the value the
    previous turns left. *)
Definition fee_iteration (multiplier : Q)
    (mosaics : gmap string MosaicDefinitionMetaDataPair)
    (st : FeeState) (m : Attachment) : option FeeState :=
  let mosaicName := helpers_mosaicIdToName (mosaicId m) in
  match mosaics !! mosaicName with
  | None => None
  | Some mosaicDefinitionMetaDataPair =>
      let divisibility := divisibility_of mosaicDefinitionMetaDataPair in
      let supply := supply mosaicDefinitionMetaDataPair in
      let quantity := quantity m in
      let '(fee', adjustment') :=
        if (supply <=? 10000) && (divisibility =? 0) then
          (1, supplyRelatedAdjustment st)
        else
          let maxMosaicQuantity := 9000000000000000 in
          let totalMosaicQuantity :=
            (inject_Z supply * inject_Z 10 ^ divisibility)%Q in
          let adjustment :=
            Js.Math_floor
              ((8 # 10) *
               Math_log (inject_Z maxMosaicQuantity / totalMosaicQuantity))%Q in
          let numNem :=
            helpers_calcXemEquivalent multiplier quantity supply divisibility in
          (helpers_calcMinFee (inject_Z (Js.Math_ceil numNem)), adjustment) in
      Some {| totalFee := totalFee st + Js.Math_max 1 (fee' - adjustment');
              fee := fee';
              supplyRelatedAdjustment := adjustment' |}
  end.

Fixpoint fee_loop (multiplier : Q)
    (mosaics : gmap string MosaicDefinitionMetaDataPair)
    (st : FeeState) (attachedMosaics : list Attachment) : option FeeState :=
  match attachedMosaics with
  | [] => Some st
  | m :: rest =>
      match fee_iteration multiplier mosaics st m with
      | None => None
      | Some st' => fee_loop multiplier mosaics st' rest
      end
  end.

Definition fee_start : FeeState :=
  {| totalFee := 0; fee := 0; supplyRelatedAdjustment := 0 |}.

Definition calculateMosaicsFee (multiplier : Q)
    (mosaics : gmap string MosaicDefinitionMetaDataPair)
    (attachedMosaics : list Attachment) : Z :=
  match fee_loop multiplier mosaics fee_start attachedMosaics with
  | None => -1
  | Some st => Js.Math_max 1 (totalFee st)
  end.

(** What the turn for the attachment at index [i] adds to [totalFee]: the
    difference between the running total after that turn and before it;
    [None] when the loop has returned by then. *)
Definition contribution (multiplier : Q)
    (mosaics : gmap string MosaicDefinitionMetaDataPair)
    (attachedMosaics : list Attachment) (i : nat) : option Z :=
  match fee_loop multiplier mosaics fee_start (take i attachedMosaics),
        fee_loop multiplier mosaics fee_start (take (S i) attachedMosaics) with
  | Some before, Some after => Some (totalFee after - totalFee before)
  | _, _ => None
  end.

(** An asset the registry knows, with supply at most 10000 and
    divisibility 0. *)
Definition small_business (mosaics : gmap string MosaicDefinitionMetaDataPair)
    (m : Attachment) : Prop :=
  exists pair,
    mosaics !! helpers_mosaicIdToName (mosaicId m) = Some pair /\
    supply pair <= 10000 /\ divisibility_of pair = 0.

Definition _multisigWrapper (senderPublicKey : string) (innerEntity : Entity)
    (due : Z) : M Entity :=
  let* timeStamp := createNEMTimeStamp in
  let version := CURRENT_NETWORK_VERSION 1 in
  let data :=
    CREATE_DATA TransactionTypes_MultisigTransaction senderPublicKey
      timeStamp due version in
  ret (mkEntity data 6000000 (MultisigFields innerEntity)).

(** Line 177: the fee of the message, from the length of its payload. *)
Definition msgFee_of (message : Message) : Z :=
  if Js.length (payload message) =? 0 then 0
  else Js.Math_max 1
         (Js.Math_floor
            (inject_Z (Js.length (payload message)) / inject_Z 2 / inject_Z 32)%Q
          + 1).

Definition _constructTransfer (senderPublicKey recipientCompressedKey : string)
    (amount : Q) (message : Message) (due : Z)
    (mosaics : option (list Attachment)) (mosaicsFee : option Z) : M Entity :=
  let* timeStamp := createNEMTimeStamp in
  let version :=
    match mosaics with
    | Some _ => CURRENT_NETWORK_VERSION 2
    | None => CURRENT_NETWORK_VERSION 1
    end in
  let data :=
    CREATE_DATA TransactionTypes_Transfer senderPublicKey timeStamp due version in
  let msgFee := msgFee_of message in
  let fee :=
    match mosaics with
    | Some _ => Js.number_of_nullable mosaicsFee
    | None => helpers_calcMinFee (amount / inject_Z 1000000)%Q
    end in
  let totalFee := (msgFee + fee) * 1000000 in
  ret (mkEntity data totalFee
         (TransferFields
            (Js.remove_dashes (Js.toUpperCase recipientCompressedKey))
            amount message mosaics)).

Definition prepareTransfer (common : Common) (tx : TransferTx)
    (mosaicsMetaData : gmap string MosaicDefinitionMetaDataPair) : M Entity :=
  let kp := KeyPair_publicKey (helpers_fixPrivateKey (privateKey common)) in
  let actualSender :=
    if tr_isMultisig tx then publicKey (tr_multisigAccount tx) else kp in
  let recipientCompressedKey := tr_recipient tx in
  let amount := inject_Z (Js.Math_round (tr_amount tx * inject_Z 1000000)%Q) in
  let message := helpers_prepareMessage common tx in
  let due := if network wallet =? Network_Testnet_id then 60 else 24 * 60 in
  let mosaics := tr_mosaics tx in
  let mosaicsFee :=
    match tr_mosaics tx with
    | None => None
    | Some attached => Some (calculateMosaicsFee amount mosaicsMetaData attached)
    end in
  let* entity :=
    _constructTransfer actualSender recipientCompressedKey amount message due
      mosaics mosaicsFee in
  if tr_isMultisig tx then _multisigWrapper kp entity due else ret entity.

(** The payload of an apostille is the file hash, sent as a hex message; the
    amount is not rounded. *)
Definition prepareApostilleTransfer (common : Common) (tx : TransferTx)
    : M Entity :=
  let kp := KeyPair_publicKey (helpers_fixPrivateKey (privateKey common)) in
  let actualSender :=
    if tr_isMultisig tx then publicKey (tr_multisigAccount tx) else kp in
  let recipientCompressedKey := tr_recipient tx in
  let amount := (tr_amount tx * inject_Z 1000000)%Q in
  let message := {| msg_type := 1; payload := tr_message tx |} in
  let due := if network wallet =? Network_Testnet_id then 60 else 24 * 60 in
  let* entity :=
    _constructTransfer actualSender recipientCompressedKey amount message due
      None None in
  if tr_isMultisig tx then _multisigWrapper kp entity due else ret entity.

(** *** Aggregate modifications *)

Definition address_of (m : Modification) : string :=
  Address_toAddress (cosignatoryAccount m) (network wallet).

(** The comparator of [_constructAggregate]: by address, with [<] and [>]. *)
Definition compare_addresses (a b : Modification) : Z :=
  if Js.string_lt (address_of a) (address_of b) then -1
  else if Js.string_lt (address_of b) (address_of a) then 1
  else 0.

(** The comparator of [_constructAggregateModifications]: by type, then by
    address with [localeCompare]. *)
Definition compare_types_then_addresses (a b : Modification) : Z :=
  Js.or_else (modificationType a - modificationType b)
    (localeCompare (address_of a) (address_of b)).

Definition _constructAggregate (tx : AggregateTx)
    (signatoryArray : list Signatory) : M Entity :=
  let* timeStamp := createNEMTimeStamp in
  let version := CURRENT_NETWORK_VERSION 2 in
  let due := if network wallet =? Network_Testnet_id then 60 else 24 * 60 in
  let data :=
    CREATE_DATA TransactionTypes_MultisigModification (multisigPubKey tx)
      timeStamp due version in
  let totalFee := (10 + 6 * Z.of_nat (length signatoryArray) + 6) * 1000000 in
  let pushed :=
    map (fun s => {| modificationType := 1; cosignatoryAccount := pubKey s |})
      signatoryArray in
  let modifications :=
    if 1 <? Z.of_nat (length pushed)
    then Js.Array_sort compare_addresses pushed
    else pushed in
  ret (mkEntity data totalFee
         (ModificationFields modifications
            (Some {| relativeChange := minCosigs tx |}))).

Definition _constructAggregateModifications (senderPublicKey : string)
    (tx : AggregateTx) (signatoryArray : list Signatory) : M Entity :=
  let* timeStamp := createNEMTimeStamp in
  let due := if network wallet =? Network_Testnet_id then 60 else 24 * 60 in
  let no_change :=
    match minCosigs tx with
    | None => true
    | Some n => n =? 0
    end in
  let version :=
    if no_change then CURRENT_NETWORK_VERSION 1 else CURRENT_NETWORK_VERSION 2 in
  let data :=
    CREATE_DATA TransactionTypes_MultisigModification (multisigPubKey tx)
      timeStamp due version in
  let '(totalFee, minCosignatories) :=
    if no_change
    then ((10 + 6 * Z.of_nat (length signatoryArray)) * 1000000, None)
    else ((10 + 6 * Z.of_nat (length signatoryArray) + 6) * 1000000,
          Some {| relativeChange := minCosigs tx |}) in
  let pushed :=
    map (fun s =>
           {| modificationType := sig_type s; cosignatoryAccount := pubKey s |})
      signatoryArray in
  let modifications :=
    if 1 <? Z.of_nat (length pushed)
    then Js.Array_sort compare_types_then_addresses pushed
    else pushed in
  let entity :=
    mkEntity data totalFee (ModificationFields modifications minCosignatories) in
  _multisigWrapper senderPublicKey entity due.

(** *** Namespaces and mosaics *)

Definition _constructNamespace (senderPublicKey rentalFeeSink : string)
    (rentalFee : Z) (namespaceParent : option string) (namespaceName : string)
    (due : Z) : M Entity :=
  let* timeStamp := createNEMTimeStamp in
  let version := CURRENT_NETWORK_VERSION 1 in
  let data :=
    CREATE_DATA TransactionTypes_ProvisionNamespace senderPublicKey timeStamp
      due version in
  let fee := 20 * 1000000 in
  ret (mkEntity data fee
         (NamespaceFields (Js.remove_dashes (Js.toUpperCase rentalFeeSink))
            rentalFee namespaceParent namespaceName)).

Definition prepareNamespace (common : Common) (tx : NamespaceTx) : M Entity :=
  let kp := KeyPair_publicKey (helpers_fixPrivateKey (privateKey common)) in
  let actualSender :=
    if ns_isMultisig tx then publicKey (ns_multisigAccount tx) else kp in
  let rentalFeeSink := ns_rentalFeeSink tx in
  let rentalFee :=
    match ns_namespaceParent tx with
    | Some _ => 200 * 1000000
    | None => 5000 * 1000000
    end in
  let namespaceParent := fqn <$> ns_namespaceParent tx in
  let namespaceName := ns_namespaceName tx in
  let due := if network wallet =? Network_Testnet_id then 60 else 24 * 60 in
  let* entity :=
    _constructNamespace actualSender rentalFeeSink rentalFee namespaceParent
      namespaceName due in
  if ns_isMultisig tx then _multisigWrapper kp entity due else ret entity.

Definition _constructMosaicDefinition (senderPublicKey rentalFeeSink : string)
    (rentalFee : Z) (namespaceParent mosaicName mosaicDescription : string)
    (mosaicProperties : list (string * PropertyValue)) (levy : option Levy)
    (due : Z) : M Entity :=
  let* timeStamp := createNEMTimeStamp in
  let version := CURRENT_NETWORK_VERSION 1 in
  let data :=
    CREATE_DATA TransactionTypes_MosaicDefinition senderPublicKey timeStamp
      due version in
  let fee := 20 * 1000000 in
  let levyData :=
    (fun l => {| ld_type := levy_feeType l;
                 ld_recipient := Js.remove_dashes (Js.toUpperCase (levy_address l));
                 ld_mosaicId := levy_mosaic l;
                 ld_fee := levy_fee l |}) <$> levy in
  ret (mkEntity data fee
         (MosaicDefinitionFields (Js.remove_dashes rentalFeeSink) rentalFee
            {| dd_creator := senderPublicKey;
               dd_id := {| namespaceId := namespaceParent; name := mosaicName |};
               dd_description := mosaicDescription;
               dd_properties :=
                 map (fun kv => {| prop_name := kv.1;
                                   prop_value := PropertyValue_toString kv.2 |})
                   mosaicProperties;
               dd_levy := levyData |})).

Definition prepareMosaicDefinition (common : Common) (tx : MosaicDefinitionTx)
    : M Entity :=
  let kp := KeyPair_publicKey (helpers_fixPrivateKey (privateKey common)) in
  let actualSender :=
    if md_isMultisig tx then publicKey (md_multisigAccount tx) else kp in
  let rentalFeeSink := md_mosaicFeeSink tx in
  let rentalFee := 500 * 1000000 in
  let namespaceParent := fqn (md_namespaceParent tx) in
  let mosaicName := md_mosaicName tx in
  let mosaicDescription := md_mosaicDescription tx in
  let mosaicProperties := md_properties tx in
  let levy :=
    match levy_mosaic (md_levy tx) with
    | Some _ => Some (md_levy tx)
    | None => None
    end in
  let due := if network wallet =? Network_Testnet_id then 60 else 24 * 60 in
  let* entity :=
    _constructMosaicDefinition actualSender rentalFeeSink rentalFee
      namespaceParent mosaicName mosaicDescription mosaicProperties levy due in
  if md_isMultisig tx then _multisigWrapper kp entity due else ret entity.

Definition _constructMosaicSupply (senderPublicKey : string)
    (mosaicId : MosaicId) (supplyType delta due : Z) : M Entity :=
  let* timeStamp := createNEMTimeStamp in
  let version := CURRENT_NETWORK_VERSION 1 in
  let data :=
    CREATE_DATA TransactionTypes_MosaicSupply senderPublicKey timeStamp due
      version in
  let fee := 20 * 1000000 in
  ret (mkEntity data fee (MosaicSupplyFields mosaicId supplyType delta)).

Definition prepareMosaicSupply (common : Common) (tx : MosaicSupplyTx)
    : M Entity :=
  let kp := KeyPair_publicKey (helpers_fixPrivateKey (privateKey common)) in
  let actualSender :=
    if su_isMultisig tx then publicKey (su_multisigAccount tx) else kp in
  let due := if network wallet =? Network_Testnet_id then 60 else 24 * 60 in
  let* entity :=
    _constructMosaicSupply actualSender (su_mosaic tx) (su_supplyType tx)
      (su_delta tx) due in
  if su_isMultisig tx then _multisigWrapper kp entity due else ret entity.

(** *** Importance transfer and multisig signature *)

Definition _constructImportanceTransfer (senderPublicKey recipientKey : string)
    (mode due : Z) : M Entity :=
  let* timeStamp := createNEMTimeStamp in
  let version := CURRENT_NETWORK_VERSION 1 in
  let data :=
    CREATE_DATA TransactionTypes_ImportanceTransfer senderPublicKey timeStamp
      due version in
  ret (mkEntity data 6000000 (ImportanceFields recipientKey mode)).

Definition prepareImportanceTransfer (common : Common) (tx : ImportanceTx)
    : M Entity :=
  let kp := KeyPair_publicKey (helpers_fixPrivateKey (privateKey common)) in
  let actualSender :=
    if im_isMultisig tx then publicKey (im_multisigAccount tx) else kp in
  let due := if network wallet =? Network_Testnet_id then 60 else 24 * 60 in
  let* entity :=
    _constructImportanceTransfer actualSender (im_remoteAccount tx)
      (im_mode tx) due in
  if im_isMultisig tx then _multisigWrapper kp entity due else ret entity.

Definition _constructSignature (senderPublicKey otherAccount otherHash : string)
    (due : Z) : M Entity :=
  let* timeStamp := createNEMTimeStamp in
  let version := CURRENT_NETWORK_VERSION 1 in
  let data :=
    CREATE_DATA TransactionTypes_MultisigSignature senderPublicKey timeStamp
      due version in
  let totalFee := (2 * 3) * 1000000 in
  ret (mkEntity data totalFee (SignatureFields otherHash otherAccount)).

(** [prepareSignature] up to the entity it hands to
    [Serialization.serializeTransaction]; signing and announcing are the
    collaborators' work. *)
Definition prepareSignature (common : Common) (tx : SignatureTx) : M Entity :=
  let kp := KeyPair_publicKey (helpers_fixPrivateKey (privateKey common)) in
  let actualSender := kp in
  let otherAccount := multisigAccountAddress tx in
  let otherHash := hash tx in
  let due := if network wallet =? Network_Testnet_id then 60 else 24 * 60 in
  _constructSignature actualSender otherAccount otherHash due.

End Transactions.

(** ** Every entry point at once

    The calls that return a built transaction, gathered in one type so that a
    statement can range over all of them. *)

Inductive Request :=
  | Transfer (common : Common) (tx : TransferTx)
      (mosaicsMetaData : gmap string MosaicDefinitionMetaDataPair)
  | ApostilleTransfer (common : Common) (tx : TransferTx)
  | ProvisionNamespace (common : Common) (tx : NamespaceTx)
  | DefineMosaic (common : Common) (tx : MosaicDefinitionTx)
  | ChangeMosaicSupply (common : Common) (tx : MosaicSupplyTx)
  | DelegateImportance (common : Common) (tx : ImportanceTx)
  | Aggregate (tx : AggregateTx) (signatoryArray : list Signatory)
  | AggregateModifications (senderPublicKey : string) (tx : AggregateTx)
      (signatoryArray : list Signatory)
  | CosignMultisig (common : Common) (tx : SignatureTx).

Definition build {host : JsHost} {nem : NemUtils} (wallet : Wallet)
    (r : Request) : M Entity :=
  match r with
  | Transfer common tx meta => prepareTransfer wallet common tx meta
  | ApostilleTransfer common tx => prepareApostilleTransfer wallet common tx
  | ProvisionNamespace common tx => prepareNamespace wallet common tx
  | DefineMosaic common tx => prepareMosaicDefinition wallet common tx
  | ChangeMosaicSupply common tx => prepareMosaicSupply wallet common tx
  | DelegateImportance common tx => prepareImportanceTransfer wallet common tx
  | Aggregate tx signatoryArray => _constructAggregate wallet tx signatoryArray
  | AggregateModifications sender tx signatoryArray =>
      _constructAggregateModifications wallet sender tx signatoryArray
  | CosignMultisig common tx => prepareSignature wallet common tx
  end.

(** The entity a builder returns when the clock is [c]. *)
Definition built {A} (m : M A) (c : Clock) : A := (m c).1.

(** An entity and, below it, the entities wrapped in [otherTrans]. *)
Fixpoint layers (e : Entity) : list Entity :=
  match e with
  | mkEntity _ _ (MultisigFields inner) => e :: layers inner
  | mkEntity _ _ _ => [e]
  end.

(** The innermost entity: the transaction of the requested kind. *)
Fixpoint innermost (e : Entity) : Entity :=
  match e with
  | mkEntity _ _ (MultisigFields inner) => innermost inner
  | mkEntity _ _ _ => e
  end.

(** The deadline policy every entry point applies, in minutes. *)
Definition dueMinutes {nem : NemUtils} (wallet : Wallet) : Z :=
  if network wallet =? Network_Testnet_id then 60 else 1440.

(** The prefix [CURRENT_NETWORK_VERSION] or-s its argument with. *)
Definition networkPrefix {nem : NemUtils} (wallet : Wallet) : Z :=
  if network wallet =? Network_Mainnet_id then 0x68000000
  else if network wallet =? Network_Testnet_id then 0x98000000
  else 0x60000000.

(** [v] is the version word of [prefix] and [schema]: the signed result of
    [prefix | schema], whose 32 bits have the top byte of [prefix] and
    [schema] in the low 24 bits. *)
Definition is_version_word (prefix schema v : Z) : Prop :=
  v = Js.bitor prefix schema
  /\ Z.shiftr (v mod 2 ^ 32) 24 = Z.shiftr prefix 24
  /\ Z.land (v mod 2 ^ 32) 0xFFFFFF = schema.

Definition has_version_word {nem : NemUtils} (wallet : Wallet) (e : Entity)
    : Prop :=
  exists schema,
    (schema = 1 \/ schema = 2)
    /\ is_version_word (networkPrefix wallet) schema (version (data_of e)).

(** The message fee in the words of the specification: 0 for an empty
    payload, otherwise [max(1, floor(payloadLength / 2 / 32) + 1)], the floor of
    the quotient being the integer quotient by 64. *)
Definition messageFee (payloadLength : Z) : Z :=
  if payloadLength =? 0 then 0 else Z.max 1 (payloadLength / 64 + 1).

(** An attachment whose asset the registry has. *)
Definition known {nem : NemUtils}
    (mosaics : gmap string MosaicDefinitionMetaDataPair) (m : Attachment)
    : Prop :=
  is_Some (mosaics !! helpers_mosaicIdToName (mosaicId m)).

(** An attachment whose asset is in the registry with a total quantity
    [supply * 10^divisibility] that is positive and at most the
    [maxMosaicQuantity] of the fee computation. *)
Definition within_limits {host : JsHost} {nem : NemUtils}
    (mosaics : gmap string MosaicDefinitionMetaDataPair) (m : Attachment)
    : Prop :=
  exists pair,
    mosaics !! helpers_mosaicIdToName (mosaicId m) = Some pair
    /\ (0 < inject_Z (supply pair) * inject_Z 10 ^ divisibility_of pair)%Q
    /\ (inject_Z (supply pair) * inject_Z 10 ^ divisibility_of pair
        <= inject_Z 9000000000000000)%Q.


(** A request whose attachments, if it is a transfer with some, are all in
    the registry passed with it. *)
Definition assets_known {nem : NemUtils} (r : Request) : Prop :=
  match r with
  | Transfer _ tx meta =>
      match tr_mosaics tx with
      | Some attached => Forall (known meta) attached
      | None => True
      end
  | _ => True
  end.

(** The canonical order of modifications: by operation code, then by
    address as [localeCompare] orders them. *)
Definition canonical_order {host : JsHost} {nem : NemUtils} (wallet : Wallet)
    (a b : Modification) : Prop :=
  modificationType a < modificationType b
  \/ (modificationType a = modificationType b
      /\ localeCompare (address_of wallet a) (address_of wallet b) <= 0).

(** The same with the addresses compared by code unit, as [<] does. *)
Definition code_unit_order {nem : NemUtils} (wallet : Wallet)
    (a b : Modification) : Prop :=
  modificationType a < modificationType b
  \/ (modificationType a = modificationType b
      /\ String.le (address_of wallet a) (address_of wallet b)).

(** A comparator on strings that a sort can rely on: swapping the arguments
    swaps the sign, and "not after" is transitive. *)
Definition consistent_comparator (compareFn : string -> string -> Z) : Prop :=
  (forall a b, 0 < compareFn a b <-> compareFn b a < 0)
  /\ (forall a b c, compareFn a b <= 0 -> compareFn b c <= 0 -> compareFn a c <= 0).

(** The entries the loops of the two constructors push, before the sort. *)
Definition pushed_as_added (signatoryArray : list Signatory) : list Modification :=
  map (fun s => {| modificationType := 1; cosignatoryAccount := pubKey s |})
    signatoryArray.

Definition pushed_with_type (signatoryArray : list Signatory) : list Modification :=
  map (fun s => {| modificationType := sig_type s; cosignatoryAccount := pubKey s |})
    signatoryArray.

(** ** A sample environment

    Values to run the builder on: the published constants of [nem-utils], its
    arithmetic helpers, and stand-ins for what hashes or encrypts. *)

Module Sample.

Fixpoint digits (s : string) (acc : Z) : option Z :=
  match s with
  | EmptyString => Some acc
  | String c r =>
      let n := Z.of_N (Ascii.N_of_ascii c) in
      if (48 <=? n) && (n <=? 57) then digits r (acc * 10 + (n - 48)) else None
  end.

(** [~~s] for [s] a run of decimal digits; [0] otherwise, as for [NaN]. *)
Definition decimal (s : string) : Z :=
  match s with
  | EmptyString => 0
  | _ => Js.ToInt32 (default 0 (digits s 0))
  end.

Definition sign_of (c : comparison) : Z :=
  match c with Lt => -1 | Eq => 0 | Gt => 1 end.

(** [Math.log] is given at the one argument the examples need:
    [ln (1/10) = -2.302585...]; [localeCompare] orders by code unit. *)
Definition host : JsHost :=
  {| Math_log := fun q =>
       if Qeq_bool q (1 # 10) then (-2302585093 # 1000000000)%Q else 0%Q;
     localeCompare := fun a b => sign_of (String.compare a b);
     ToInt32_of_string := decimal |}.

Definition calcMinFee (numNem : Q) : Z :=
  let scaled := (numNem / inject_Z 10000)%Q in
  let fee := if Qle_bool (inject_Z 1) scaled then Qfloor scaled else 1 in
  if 25 <? fee then 25 else fee.

Definition calcXemEquivalent (multiplier : Q) (q sup divisibility : Z) : Q :=
  if sup =? 0 then 0%Q
  else (inject_Z 8999999999 * inject_Z q * multiplier / inject_Z sup
        / inject_Z 10 ^ (divisibility + 6))%Q.

Definition nem : NemUtils :=
  {| Network_Mainnet_id := 104;
     Network_Testnet_id := -104;
     TransactionTypes_Transfer := 0x101;
     TransactionTypes_ImportanceTransfer := 0x801;
     TransactionTypes_MultisigModification := 0x1001;
     TransactionTypes_MultisigSignature := 0x1002;
     TransactionTypes_MultisigTransaction := 0x1004;
     TransactionTypes_ProvisionNamespace := 0x2001;
     TransactionTypes_MosaicDefinition := 0x4001;
     TransactionTypes_MosaicSupply := 0x4002;
     helpers_mosaicIdToName := fun id => namespaceId id +:+ ":" +:+ name id;
     helpers_calcXemEquivalent := calcXemEquivalent;
     helpers_calcMinFee := calcMinFee;
     helpers_fixPrivateKey := fun k => k;
     helpers_prepareMessage := fun _ tx =>
       {| msg_type := 1; payload := tr_message tx |};
     KeyPair_publicKey := fun k => "pub-" +:+ k;
     Address_toAddress := fun k _ => k |}.

Definition testnet : Wallet := {| network := -104; node := "localhost" |}.
Definition mainnet : Wallet := {| network := 104; node := "localhost" |}.
Definition mijin : Wallet := {| network := 96; node := "localhost" |}.

Definition common : Common := {| privateKey := "k"; password := "" |}.

Definition registry_entry (sup : Z) (divisibility : string)
    : MosaicDefinitionMetaDataPair :=
  {| mosaicDefinition :=
       {| properties :=
            [ {| prop_name := "divisibility"; prop_value := divisibility |} ] |};
     supply := sup |}.

Definition small : MosaicId := {| namespaceId := "shop"; name := "voucher" |}.
Definition large : MosaicId := {| namespaceId := "big"; name := "coin" |}.
Definition ghost : MosaicId := {| namespaceId := "no"; name := "such" |}.

(** [shop:voucher] is a small-business asset; [big:coin] has a supply of
    9e16 indivisible units, ten times [maxMosaicQuantity]. *)
Definition registry : gmap string MosaicDefinitionMetaDataPair :=
  <["shop:voucher" := registry_entry 5000 "0"]>
    (<["big:coin" := registry_entry 90000000000000000 "0"]> ∅).

Definition transfer (multisig : bool) (message : string)
    (attached : option (list Attachment)) : TransferTx :=
  {| tr_isMultisig := multisig;
     tr_multisigAccount := {| publicKey := "multisig-key" |};
     tr_recipient := "tals-abcd";
     tr_amount := 1%Q;
     tr_message := message;
     tr_mosaics := attached |}.

End Sample.

(** ** Inputs for the sample environment *)

Module Run.

Import Sample.

Definition attach (id : MosaicId) (q : Z) : Attachment :=
  {| mosaicId := id; quantity := q |}.

(** A transfer of one XEM that attaches an asset the registry has not. *)
Definition ghost_transfer (multisig : bool) : TransferTx :=
  transfer multisig "" (Some [attach ghost 1]).

(** A large-supply asset followed by a small-business one. *)
Definition large_then_small : list Attachment :=
  [attach large 10; attach small 10].

(** The loop variables after the turn of [big:coin]. *)
Definition after_large : FeeState :=
  {| totalFee := 3; fee := 1; supplyRelatedAdjustment := -2 |}.

Definition cosigners : AggregateTx :=
  {| multisigPubKey := "multisig-key"; minCosigs := Some 1 |}.

Definition twice_the_same : list Signatory :=
  [ {| sig_type := 1; pubKey := "cosigner" |};
    {| sig_type := 1; pubKey := "cosigner" |} ].

Definition mixed : list Signatory :=
  [ {| sig_type := 2; pubKey := "b" |};
    {| sig_type := 1; pubKey := "z" |};
    {| sig_type := 1; pubKey := "a" |} ].

(** A multisig transfer built while the clock goes from 100 to 101. *)
Definition wrapped_transfer : Entity :=
  built (build (host := host) (nem := nem) testnet
           (Transfer common (transfer true "" None) registry))
    (ticking 100).

End Run.

(** ** Reading a built transaction *)

(** Whether the entry point puts what it builds in a multisig wrapper: the
    [isMultisig] of its [tx]; [_constructAggregateModifications] always does,
    [_constructAggregate] and [prepareSignature] never. *)
Definition wraps (r : Request) : bool :=
  match r with
  | Transfer _ tx _ => tr_isMultisig tx
  | ApostilleTransfer _ tx => tr_isMultisig tx
  | ProvisionNamespace _ tx => ns_isMultisig tx
  | DefineMosaic _ tx => md_isMultisig tx
  | ChangeMosaicSupply _ tx => su_isMultisig tx
  | DelegateImportance _ tx => im_isMultisig tx
  | Aggregate _ _ => false
  | AggregateModifications _ _ _ => true
  | CosignMultisig _ _ => false
  end.

(** The transaction type of the kind an entry point builds. *)
Definition kind_of {nem : NemUtils} (r : Request) : Z :=
  match r with
  | Transfer _ _ _ => TransactionTypes_Transfer
  | ApostilleTransfer _ _ => TransactionTypes_Transfer
  | ProvisionNamespace _ _ => TransactionTypes_ProvisionNamespace
  | DefineMosaic _ _ => TransactionTypes_MosaicDefinition
  | ChangeMosaicSupply _ _ => TransactionTypes_MosaicSupply
  | DelegateImportance _ _ => TransactionTypes_ImportanceTransfer
  | Aggregate _ _ => TransactionTypes_MultisigModification
  | AggregateModifications _ _ _ => TransactionTypes_MultisigModification
  | CosignMultisig _ _ => TransactionTypes_MultisigSignature
  end.

(** The public key of the key pair made from [common.privateKey]. *)
Definition own_key {nem : NemUtils} (common : Common) : string :=
  KeyPair_publicKey (helpers_fixPrivateKey (privateKey common)).

(** The caller's key: the one of the key pair for the [prepare...] entry
    points, the [senderPublicKey] argument of
    [_constructAggregateModifications]; [_constructAggregate] has none. *)
Definition caller_key {nem : NemUtils} (r : Request) : option string :=
  match r with
  | Transfer common _ _ => Some (own_key common)
  | ApostilleTransfer common _ => Some (own_key common)
  | ProvisionNamespace common _ => Some (own_key common)
  | DefineMosaic common _ => Some (own_key common)
  | ChangeMosaicSupply common _ => Some (own_key common)
  | DelegateImportance common _ => Some (own_key common)
  | Aggregate _ _ => None
  | AggregateModifications sender _ _ => Some sender
  | CosignMultisig common _ => Some (own_key common)
  end.

(** The key of the multisig account the request names, if it names one. *)
Definition multisig_key (r : Request) : option string :=
  match r with
  | Transfer _ tx _ => Some (publicKey (tr_multisigAccount tx))
  | ApostilleTransfer _ tx => Some (publicKey (tr_multisigAccount tx))
  | ProvisionNamespace _ tx => Some (publicKey (ns_multisigAccount tx))
  | DefineMosaic _ tx => Some (publicKey (md_multisigAccount tx))
  | ChangeMosaicSupply _ tx => Some (publicKey (su_multisigAccount tx))
  | DelegateImportance _ tx => Some (publicKey (im_multisigAccount tx))
  | Aggregate tx _ => Some (multisigPubKey tx)
  | AggregateModifications _ tx _ => Some (multisigPubKey tx)
  | CosignMultisig _ _ => None
  end.

(** The [recipient] of a transfer, the [rentalFeeSink] of a namespace
    provision and the [creationFeeSink] of a mosaic definition. *)
Definition recipient_of (e : Entity) : option string :=
  match custom_of e with
  | TransferFields recipient _ _ _ => Some recipient
  | _ => None
  end.

Definition rentalFeeSink_of (e : Entity) : option string :=
  match custom_of e with
  | NamespaceFields sink _ _ _ => Some sink
  | _ => None
  end.

Definition creationFeeSink_of (e : Entity) : option string :=
  match custom_of e with
  | MosaicDefinitionFields sink _ _ => Some sink
  | _ => None
  end.

Definition definition_of (e : Entity) : option DefinitionData :=
  match custom_of e with
  | MosaicDefinitionFields _ _ d => Some d
  | _ => None
  end.

(** The [minCosignatories] of an aggregate modification, when it has the
    field. *)
Definition minCosignatories_of (e : Entity) : option MinCosignatories :=
  match custom_of e with
  | ModificationFields _ mc => mc
  | _ => None
  end.

(** An aggregate modification of [n] entries whose version, fee and fields
    agree: with the [minCosignatories] field it has schema version 2 and
    pays 6 more, without it schema version 1. *)
Definition modification_agrees {nem : NemUtils} (wallet : Wallet) (n : nat)
    (e : Entity) : Prop :=
  exists mods mc,
    custom_of e = ModificationFields mods mc
    /\ length mods = n
    /\ is_version_word (networkPrefix wallet)
         (match mc with Some _ => 2 | None => 1 end) (version (data_of e))
    /\ fee_of e
       = (10 + 6 * Z.of_nat n + match mc with Some _ => 6 | None => 0 end)
         * 1000000.

(** The characters of a string, and the two sorts of character that the
    normalisation of an address removes. *)
Definition chars (s : string) : list Ascii.ascii := String.list_ascii_of_string s.

Definition is_dash (c : Ascii.ascii) : Prop := c = Ascii.ascii_of_N 45.

Definition is_lower_letter (c : Ascii.ascii) : Prop :=
  (97 <= Ascii.N_of_ascii c <= 122)%N.

(** The registry entry of an asset whose definition is the one a built
    mosaic definition carries. *)
Definition registered (d : DefinitionData) (initialSupply : Z)
    : MosaicDefinitionMetaDataPair :=
  {| mosaicDefinition := {| properties := dd_properties d |};
     supply := initialSupply |}.

(** What an attachment adds to the total when the adjustment left by the
    turns before it plays no part: 1 for a small-business asset, otherwise
    [max(1, fee - supplyRelatedAdjustment)] with both computed in its own
    turn; 0 stands for an asset the registry has not. *)
Definition own_contribution {host : JsHost} {nem : NemUtils} (multiplier : Q)
    (mosaics : gmap string MosaicDefinitionMetaDataPair) (m : Attachment) : Z :=
  match fee_iteration multiplier mosaics fee_start m with
  | Some st => totalFee st
  | None => 0
  end.

Definition sum_of (l : list Z) : Z := foldr Z.add 0 l.

(** ** Announcing a transaction

    [src/networkRequests.ts], as far as the builder uses it, and the callers
    in [src/transactions.ts].  A request is modelled by the arguments of the
    [fetch] it makes when subscribed to; the reply is the collaborators'. *)

(** The [RequestAnnounce] object: the serialized transaction in hex and its
    signature. *)
Record RequestAnnounce := { ra_data : string; ra_signature : string }.

(** A value of the object given to [querystring.stringify]. *)
Inductive QueryValue :=
  | QString (s : string)
  | QNumber (z : Z)
  | QUndefined.

(** What the builder and the requests take from outside: constants of
    [./appConstants] and of [nem-utils], the serializer, the signer, and the
    [JSON.stringify] and [querystring.stringify] of the platform. *)
Class Collaborators := {
  AppConstants_defaultNetwork : Z;
  AppConstants_defaultMijinPort : Z;
  AppConstants_defaultNisPort : Z;
  Network_Mijin_id : Z;
  Nodes_defaultMainnetNode : string;
  helpers_getHostname : string -> string;
  Serialization_serializeTransaction : Entity -> list Byte.byte;
  KeyPair_sign : string -> list Byte.byte -> string;
  convert_ua2hex : list Byte.byte -> string;
  JSON_stringify : RequestAnnounce -> string;
  querystring_stringify : list (string * QueryValue) -> string
}.

Record FetchInit := {
  fi_method : string;
  fi_headers : list (string * string);
  fi_body : string
}.

(** The arguments of a [fetch]: the address and, for a POST, the options. *)
Record FetchCall := { fc_url : string; fc_init : option FetchInit }.

(** The two service objects.  Each constructor makes a [Wallet] of its own:
    the one of [Transactions] and the one of the [NetworkRequests] inside it
    are two objects. *)
Record NetworkRequests := { nr_wallet : Wallet }.

Record Transactions := {
  t_wallet : Wallet;
  t_networkRequests : NetworkRequests
}.

Section Announcing.

Context {host : JsHost} {nem : NemUtils} {ext : Collaborators}.

(** [src/wallet.ts], the constructor. *)
Definition new_Wallet : Wallet :=
  {| network := AppConstants_defaultNetwork; node := Nodes_defaultMainnetNode |}.

Definition new_NetworkRequests : NetworkRequests := {| nr_wallet := new_Wallet |}.

Definition new_Transactions : Transactions :=
  {| t_wallet := new_Wallet; t_networkRequests := new_NetworkRequests |}.

(** [t.wallet.network = n] and [t.wallet.node = s] on a [Transactions]. *)
Definition set_network (n : Z) (t : Transactions) : Transactions :=
  {| t_wallet := {| network := n; node := node (t_wallet t) |};
     t_networkRequests := t_networkRequests t |}.

Definition set_node (s : string) (t : Transactions) : Transactions :=
  {| t_wallet := {| network := network (t_wallet t); node := s |};
     t_networkRequests := t_networkRequests t |}.

Definition getPort (this : NetworkRequests) : Z :=
  if network (nr_wallet this) =? Network_Mijin_id
  then AppConstants_defaultMijinPort
  else AppConstants_defaultNisPort.

(** ["http://" + host + ":" + this.getPort() + path] *)
Definition nis_url (this : NetworkRequests) (host_name path : string) : string :=
  "http://" +:+ host_name +:+ ":" +:+ pretty (getPort this) +:+ path.

Definition announceTransaction (this : NetworkRequests) (host_name : string)
    (obj : RequestAnnounce) : FetchCall :=
  let url := nis_url this host_name "/transaction/announce" in
  let req :=
    {| fi_method := "POST";
       fi_headers := [("Content-Type", "application/json")];
       fi_body := JSON_stringify obj |} in
  {| fc_url := url; fc_init := Some req |}.

(** [id] is [None] when the argument is missing; [if(id)] also takes 0 for
    missing. *)
Definition getIncomingTxes (this : NetworkRequests) (host_name address : string)
    (txHash : QueryValue) (id : option Z) : FetchCall :=
  let url := nis_url this host_name "/account/transfers/incoming" in
  let obj :=
    match id with
    | Some n =>
        if n =? 0 then [("address", QString address); ("hash", txHash)]
        else [("address", QString address); ("hash", txHash); ("id", QNumber n)]
    | None => [("address", QString address); ("hash", txHash)]
    end in
  {| fc_url := url +:+ "?" +:+ querystring_stringify obj; fc_init := None |}.

Definition getNamespaces (this : NetworkRequests) (host_name : string)
    (id : option Z) : FetchCall :=
  let url := nis_url this host_name "/namespace/root/page" in
  let obj :=
    match id with
    | Some n =>
        if n =? 0 then [("pageSize", QNumber 100)]
        else [("pageSize", QNumber 100); ("id", QNumber n)]
    | None => [("pageSize", QNumber 100)]
    end in
  {| fc_url := url +:+ "?" +:+ querystring_stringify obj; fc_init := None |}.

Definition serializeAndAnnounceTransaction (this : Transactions)
    (entity : Entity) (common : Common) : FetchCall :=
  let kp := helpers_fixPrivateKey (privateKey common) in
  let result := Serialization_serializeTransaction entity in
  let signature := KeyPair_sign kp result in
  let obj := {| ra_data := convert_ua2hex result; ra_signature := signature |} in
  announceTransaction (t_networkRequests this)
    (helpers_getHostname (node (t_wallet this))) obj.

(** [prepareSignature] whole: it builds the signature transaction, then
    serializes, signs and announces it itself. *)
Definition prepareSignature_announce (this : Transactions) (common : Common)
    (tx : SignatureTx) : M FetchCall :=
  let kp := helpers_fixPrivateKey (privateKey common) in
  let actualSender := KeyPair_publicKey kp in
  let otherAccount := multisigAccountAddress tx in
  let otherHash := hash tx in
  let due :=
    if network (t_wallet this) =? Network_Testnet_id then 60 else 24 * 60 in
  let* entity :=
    _constructSignature (t_wallet this) actualSender otherAccount otherHash due in
  let result := Serialization_serializeTransaction entity in
  let signature := KeyPair_sign kp result in
  let obj := {| ra_data := convert_ua2hex result; ra_signature := signature |} in
  ret (announceTransaction (t_networkRequests this)
         (helpers_getHostname (node (t_wallet this))) obj).

End Announcing.

(** ** More inputs for the sample environment *)

Module More.

Import Sample.

Definition xem : MosaicId := {| namespaceId := "nem"; name := "xem" |}.

(** [nem:xem], 8999999999 units of six decimals, and [shop:voucher]: both
    within the limits. *)
Definition chain_registry : gmap string MosaicDefinitionMetaDataPair :=
  <["nem:xem" := registry_entry 8999999999 "6"]>
    (<["shop:voucher" := registry_entry 5000 "0"]> ∅).

Definition xem_then_voucher : list Attachment :=
  [Run.attach xem 5000000; Run.attach small 2].

Definition voucher_then_xem : list Attachment :=
  [Run.attach small 2; Run.attach xem 5000000].

Definition new_mosaic : MosaicDefinitionTx :=
  {| md_isMultisig := false;
     md_multisigAccount := {| publicKey := "multisig-key" |};
     md_mosaicFeeSink := "Tbmosa-icod4f";
     md_namespaceParent := {| fqn := "shop" |};
     md_mosaicName := "token";
     md_mosaicDescription := "a token";
     md_properties :=
       [ ("initialSupply", PNumber 1000); ("divisibility", PNumber 3);
         ("supplyMutable", PBoolean true); ("transferable", PBoolean true) ];
     md_levy :=
       {| levy_feeType := 1; levy_address := ""; levy_mosaic := None;
          levy_fee := 0 |} |}.

(** A transfer to a recipient that is already in the built form. *)
Definition second_transfer : TransferTx :=
  {| tr_isMultisig := true;
     tr_multisigAccount := {| publicKey := "multisig-key" |};
     tr_recipient := "TALSABCD";
     tr_amount := 2%Q;
     tr_message := "";
     tr_mosaics := None |}.

(** The usual ports and the Mijin network id; the serializer, the signer and
    the hex conversion are stand-ins. *)
Definition collaborators : Collaborators :=
  {| AppConstants_defaultNetwork := 104;
     AppConstants_defaultMijinPort := 7895;
     AppConstants_defaultNisPort := 7890;
     Network_Mijin_id := 96;
     Nodes_defaultMainnetNode := "alice6.nem.ninja";
     helpers_getHostname := fun s => s;
     Serialization_serializeTransaction := fun _ => [];
     KeyPair_sign := fun k _ => "signed-by-" +:+ k;
     convert_ua2hex := fun _ => "";
     JSON_stringify := fun obj => ra_data obj +:+ "/" +:+ ra_signature obj;
     querystring_stringify := fun _ => "" |}.

End More.

(** ** Running the builders *)

Ltac run_builder :=
  unfold built, build, prepareTransfer, prepareApostilleTransfer,
    prepareNamespace, prepareMosaicDefinition, prepareMosaicSupply,
    prepareImportanceTransfer, prepareSignature, _constructTransfer,
    _constructNamespace, _constructMosaicDefinition, _constructMosaicSupply,
    _constructImportanceTransfer, _constructSignature, _constructAggregate,
    _constructAggregateModifications, _multisigWrapper, bind, ret,
    createNEMTimeStamp;
  cbn beta iota zeta.

Section Headers.

Context {host : JsHost} {nem : NemUtils}.
Variable wallet : Wallet.

Lemma due_is_policy :
  (if network wallet =? Network_Testnet_id then 60 else 24 * 60)
  = dueMinutes wallet.
Proof.
  unfold dueMinutes. destruct (network wallet =? Network_Testnet_id); reflexivity.
Qed.

Lemma CREATE_DATA_deadline txtype sender t due v :
  deadline (CREATE_DATA wallet txtype sender t due v) = t + due * 60.
Proof. reflexivity. Qed.

Lemma CREATE_DATA_timeStamp txtype sender t due v :
  timeStamp (CREATE_DATA wallet txtype sender t due v) = t.
Proof. reflexivity. Qed.

(** C7.  In every transaction an entry point returns, the wrapper and the
    wrapped one alike, the deadline is the timestamp plus [dueMinutes * 60],
    with [dueMinutes] 60 on the test network and 1440 on any other. *)
Theorem deadline_is_timestamp_plus_due (r : Request) (c : Clock) :
  Forall
    (fun e =>
       deadline (data_of e)
       = timeStamp (data_of e)
         + (if network wallet =? Network_Testnet_id then 60 else 1440) * 60)
    (layers (built (build wallet r) c)).
Proof.
  change 1440 with (24 * 60).
  destruct r; run_builder;
    repeat match goal with
           | |- context [if ?b then _ else _] =>
               lazymatch b with
               | (_ =? Network_Testnet_id) => fail
               | _ => destruct b eqn:?
               end
           | |- context [match minCosigs ?t with _ => _ end] =>
               destruct (minCosigs t)
           end;
    cbn [fst layers]; repeat constructor.
Qed.

End Headers.

Section Versions.

Context {host : JsHost} {nem : NemUtils}.
Variable wallet : Wallet.

Lemma CURRENT_NETWORK_VERSION_prefix (val : Z) :
  CURRENT_NETWORK_VERSION wallet val = Js.bitor (networkPrefix wallet) val.
Proof.
  unfold CURRENT_NETWORK_VERSION, networkPrefix.
  repeat destruct (_ =? _); reflexivity.
Qed.

Lemma networkPrefix_cases :
  networkPrefix wallet = 0x68000000 \/ networkPrefix wallet = 0x98000000
  \/ networkPrefix wallet = 0x60000000.
Proof. unfold networkPrefix. repeat destruct (_ =? _); auto. Qed.

Lemma version_word_of_schema (schema : Z) :
  schema = 1 \/ schema = 2 ->
  is_version_word (networkPrefix wallet) schema
    (CURRENT_NETWORK_VERSION wallet schema).
Proof.
  intros Hs. rewrite CURRENT_NETWORK_VERSION_prefix. unfold is_version_word.
  destruct networkPrefix_cases as [-> | [-> | ->]], Hs as [-> | ->];
    vm_compute; auto.
Qed.

Lemma version_passed_is_kept (schema : Z) :
  schema = 1 \/ schema = 2 ->
  Js.or_else (CURRENT_NETWORK_VERSION wallet schema)
    (CURRENT_NETWORK_VERSION wallet 1)
  = CURRENT_NETWORK_VERSION wallet schema.
Proof.
  intros Hs. rewrite !CURRENT_NETWORK_VERSION_prefix.
  destruct networkPrefix_cases as [-> | [-> | ->]], Hs as [-> | ->];
    reflexivity.
Qed.

Lemma header_version_ok txtype sender t due schema f cu :
  schema = 1 \/ schema = 2 ->
  has_version_word wallet
    (mkEntity
       (CREATE_DATA wallet txtype sender t due
          (CURRENT_NETWORK_VERSION wallet schema)) f cu).
Proof.
  intros Hs. exists schema. split; [exact Hs |].
  cbn [data_of CREATE_DATA version]. rewrite (version_passed_is_kept _ Hs).
  apply version_word_of_schema, Hs.
Qed.

Lemma networkPrefix_by_name :
  Network_Mainnet_id <> Network_Testnet_id ->
  (network wallet = Network_Mainnet_id -> networkPrefix wallet = 0x68000000)
  /\ (network wallet = Network_Testnet_id -> networkPrefix wallet = 0x98000000)
  /\ (network wallet <> Network_Mainnet_id ->
      network wallet <> Network_Testnet_id ->
      networkPrefix wallet = 0x60000000).
Proof.
  intros Hd. unfold networkPrefix. repeat split.
  - intros ->. rewrite Z.eqb_refl. reflexivity.
  - intros ->. destruct (Z.eqb_spec Network_Testnet_id Network_Mainnet_id);
      [congruence |]. rewrite Z.eqb_refl. reflexivity.
  - intros H1 H2.
    destruct (Z.eqb_spec (network wallet) Network_Mainnet_id); [contradiction |].
    destruct (Z.eqb_spec (network wallet) Network_Testnet_id); [contradiction |].
    reflexivity.
Qed.

(** C8.  With distinct identifiers for the main and the test network, the
    prefix is 0x68000000 on the main network, 0x98000000 on the test network
    and 0x60000000 on any other; in every transaction an entry point returns
    (wrapper and wrapped) the version is the prefix or-ed with a schema
    version 1 or 2, a word whose top byte is that of the prefix and whose
    low 24 bits are the schema version; and the transfer that
    [prepareTransfer] builds has schema version 2 when [tx.mosaics] is
    there and 1 when it is not, as has the transfer of an apostille, which
    never has attachments. *)
Theorem version_is_prefix_or_schema
    (Hdistinct : Network_Mainnet_id <> Network_Testnet_id) :
  ((network wallet = Network_Mainnet_id -> networkPrefix wallet = 0x68000000)
   /\ (network wallet = Network_Testnet_id -> networkPrefix wallet = 0x98000000)
   /\ (network wallet <> Network_Mainnet_id ->
       network wallet <> Network_Testnet_id ->
       networkPrefix wallet = 0x60000000))
  /\ (forall (r : Request) (c : Clock),
        Forall (has_version_word wallet) (layers (built (build wallet r) c)))
  /\ (forall common tx meta (c : Clock),
        let e := innermost (built (prepareTransfer wallet common tx meta) c) in
        is_version_word (networkPrefix wallet)
          (match tr_mosaics tx with Some _ => 2 | None => 1 end)
          (version (data_of e)))
  /\ (forall common tx (c : Clock),
        let e := innermost (built (prepareApostilleTransfer wallet common tx) c) in
        is_version_word (networkPrefix wallet) 1 (version (data_of e))).
Proof.
  split; [exact (networkPrefix_by_name Hdistinct) |]. split.
  - intros r c.
    destruct r; run_builder;
      repeat match goal with
             | |- context [if ?b then _ else _] =>
                 lazymatch b with
                 | (_ =? Network_Testnet_id) => fail
                 | _ => destruct b eqn:?
                 end
             | |- context [match minCosigs ?t with _ => _ end] =>
                 destruct (minCosigs t)
             | |- context [match tr_mosaics ?t with _ => _ end] =>
                 destruct (tr_mosaics t)
             end;
      cbn [fst layers];
      repeat (constructor; [apply header_version_ok; auto |]);
      constructor.
  - split.
    + intros common tx meta c. run_builder.
      destruct (tr_isMultisig tx), (tr_mosaics tx); cbn [fst innermost data_of];
        cbn [CREATE_DATA version]; rewrite version_passed_is_kept by auto;
        apply version_word_of_schema; auto.
    + intros common tx c. run_builder.
      destruct (tr_isMultisig tx); cbn [fst innermost data_of];
        cbn [CREATE_DATA version]; rewrite version_passed_is_kept by auto;
        apply version_word_of_schema; auto.
Qed.

End Versions.

Section MessageFee.

Context {host : JsHost} {nem : NemUtils}.
Variable wallet : Wallet.

Lemma floor_of_halved_over_32 (n : Z) :
  Js.Math_floor (inject_Z n / inject_Z 2 / inject_Z 32)%Q = n / 64.
Proof.
  unfold Js.Math_floor, Qfloor, Qdiv, Qmult, Qinv, inject_Z. cbn.
  f_equal. lia.
Qed.

Lemma msgFee_of_spec (message : Message) :
  msgFee_of message = messageFee (Js.length (payload message)).
Proof.
  unfold msgFee_of, messageFee, Js.Math_max.
  rewrite floor_of_halved_over_32. reflexivity.
Qed.

(** C9.  The message fee the code computes is 0 for an empty payload and
    [max(1, floor(length / 2 / 32) + 1)] otherwise, the length counted in
    characters of the payload; it is the message part of the fee of the
    transfer [_constructTransfer] builds. *)
Theorem message_fee_formula (message : Message) :
  let n := Js.length (payload message) in
  msgFee_of message = (if n =? 0 then 0 else Z.max 1 (n / 64 + 1))
  /\ (forall sender recipient amount due mosaics mosaicsFee c,
        fee_of (built (_constructTransfer wallet sender recipient amount
                         message due mosaics mosaicsFee) c)
        = (messageFee n
           + match mosaics with
             | Some _ => Js.number_of_nullable mosaicsFee
             | None => helpers_calcMinFee (amount / inject_Z 1000000)%Q
             end) * 1000000).
Proof.
  split.
  - apply msgFee_of_spec.
  - intros. run_builder. cbn [fst fee_of]. rewrite msgFee_of_spec. reflexivity.
Qed.

End MessageFee.

Section MosaicsFee.

Context {host : JsHost} {nem : NemUtils}.

Implicit Types (mosaics : gmap string MosaicDefinitionMetaDataPair)
  (st : FeeState) (m : Attachment) (l : list Attachment).

Lemma fee_iteration_unknown multiplier mosaics st m :
  mosaics !! helpers_mosaicIdToName (mosaicId m) = None ->
  fee_iteration multiplier mosaics st m = None.
Proof. intros H. unfold fee_iteration. rewrite H. reflexivity. Qed.

Lemma fee_iteration_known multiplier mosaics st m :
  known mosaics m -> is_Some (fee_iteration multiplier mosaics st m).
Proof.
  intros [pair H]. unfold fee_iteration. rewrite H.
  destruct (_ && _); eexists; reflexivity.
Qed.

Lemma fee_iteration_small multiplier mosaics st m :
  small_business mosaics m ->
  fee_iteration multiplier mosaics st m
  = Some {| totalFee :=
              totalFee st + Z.max 1 (1 - supplyRelatedAdjustment st);
            fee := 1;
            supplyRelatedAdjustment := supplyRelatedAdjustment st |}.
Proof.
  intros (pair & Hlook & Hsupply & Hdiv). unfold fee_iteration.
  rewrite Hlook, Hdiv. apply Z.leb_le in Hsupply. rewrite Hsupply.
  reflexivity.
Qed.

Lemma fee_loop_app multiplier mosaics st l1 l2 :
  fee_loop multiplier mosaics st (l1 ++ l2)
  = match fee_loop multiplier mosaics st l1 with
    | Some st' => fee_loop multiplier mosaics st' l2
    | None => None
    end.
Proof.
  revert st. induction l1 as [| m l1 IH]; intros st; cbn [fee_loop app].
  - reflexivity.
  - destruct (fee_iteration multiplier mosaics st m); [apply IH | reflexivity].
Qed.

Lemma fee_loop_unknown multiplier mosaics st l m :
  m ∈ l ->
  mosaics !! helpers_mosaicIdToName (mosaicId m) = None ->
  fee_loop multiplier mosaics st l = None.
Proof.
  intros Hin Hmiss. revert st.
  induction l as [| m' l IH]; intros st; cbn [fee_loop].
  - inversion Hin.
  - apply elem_of_cons in Hin as [<- | Hin].
    + rewrite fee_iteration_unknown by exact Hmiss. reflexivity.
    + destruct (fee_iteration multiplier mosaics st m');
        [apply IH, Hin | reflexivity].
Qed.

Lemma fee_loop_known multiplier mosaics st l :
  Forall (known mosaics) l -> is_Some (fee_loop multiplier mosaics st l).
Proof.
  intros Hall. revert st.
  induction Hall as [| m l Hm _ IH]; intros st; cbn [fee_loop].
  - eexists; reflexivity.
  - destruct (fee_iteration_known multiplier mosaics st m Hm) as [st' ->].
    apply IH.
Qed.

Lemma calculateMosaicsFee_unknown multiplier mosaics l m :
  m ∈ l ->
  mosaics !! helpers_mosaicIdToName (mosaicId m) = None ->
  calculateMosaicsFee multiplier mosaics l = -1.
Proof.
  intros Hin Hmiss. unfold calculateMosaicsFee.
  rewrite (fee_loop_unknown _ _ _ _ _ Hin Hmiss). reflexivity.
Qed.

Lemma calculateMosaicsFee_known multiplier mosaics l :
  Forall (known mosaics) l -> 1 <= calculateMosaicsFee multiplier mosaics l.
Proof.
  intros Hall. unfold calculateMosaicsFee.
  destruct (fee_loop_known multiplier mosaics fee_start l Hall) as [st ->].
  unfold Js.Math_max. lia.
Qed.

(** The turn of a small-business attachment adds [max(1, 1 - a)], where
    [a] is the adjustment the turns before it left. *)
Lemma contribution_small multiplier mosaics l (i : nat) m st :
  l !! i = Some m ->
  small_business mosaics m ->
  fee_loop multiplier mosaics fee_start (take i l) = Some st ->
  contribution multiplier mosaics l i
  = Some (Z.max 1 (1 - supplyRelatedAdjustment st)).
Proof.
  intros Hi Hsmall Hbefore. unfold contribution.
  rewrite (take_S_r l i m Hi), fee_loop_app, Hbefore. cbn [fee_loop].
  rewrite (fee_iteration_small _ _ _ _ Hsmall). cbn [totalFee].
  f_equal. lia.
Qed.

End MosaicsFee.

Section TransferFee.

Context {host : JsHost} {nem : NemUtils}.
Variable wallet : Wallet.

Lemma msgFee_of_nonneg (message : Message) : 0 <= msgFee_of message.
Proof.
  rewrite msgFee_of_spec. unfold messageFee.
  destruct (_ =? 0); lia.
Qed.

Lemma msgFee_of_short (message : Message) :
  Js.length (payload message) < 64 -> msgFee_of message <= 1.
Proof.
  intros Hshort. rewrite msgFee_of_spec. unfold messageFee.
  destruct (Z.eqb_spec (Js.length (payload message)) 0) as [| Hne]; [lia |].
  assert (0 <= Js.length (payload message)) by (unfold Js.length; lia).
  rewrite Z.div_small by lia. lia.
Qed.

(** The transfer [prepareTransfer] builds, below the wrapper if there is
    one. *)
Lemma prepareTransfer_innermost common tx meta c :
  innermost (built (prepareTransfer wallet common tx meta) c)
  = built
      (_constructTransfer wallet
         (if tr_isMultisig tx then publicKey (tr_multisigAccount tx)
          else KeyPair_publicKey (helpers_fixPrivateKey (privateKey common)))
         (tr_recipient tx)
         (inject_Z (Js.Math_round (tr_amount tx * inject_Z 1000000)))
         (helpers_prepareMessage common tx)
         (if network wallet =? Network_Testnet_id then 60 else 24 * 60)
         (tr_mosaics tx)
         (match tr_mosaics tx with
          | None => None
          | Some attached =>
              Some (calculateMosaicsFee
                      (inject_Z (Js.Math_round (tr_amount tx * inject_Z 1000000)))
                      meta attached)
          end)) c.
Proof. run_builder. destruct (tr_isMultisig tx); reflexivity. Qed.

Lemma prepareTransfer_fee common tx meta c :
  fee_of (innermost (built (prepareTransfer wallet common tx meta) c))
  = (msgFee_of (helpers_prepareMessage common tx)
     + match tr_mosaics tx with
       | Some attached =>
           calculateMosaicsFee
             (inject_Z (Js.Math_round (tr_amount tx * inject_Z 1000000)))
             meta attached
       | None =>
           helpers_calcMinFee
             (inject_Z (Js.Math_round (tr_amount tx * inject_Z 1000000))
              / inject_Z 1000000)%Q
       end) * 1000000.
Proof.
  rewrite prepareTransfer_innermost. run_builder.
  destruct (tr_mosaics tx); reflexivity.
Qed.

(** C1, as the code has it.  When an attachment of the transfer names an
    asset the registry does not have, [calculateMosaicsFee] returns the
    sentinel [-1], whatever the multiplier, a value it never returns when every
    asset is known (then it returns 1 or more).  Nothing aborts:
    [prepareTransfer] has no failure path and returns a transaction all the
    same, a transfer that carries the attachments. *)
Theorem unknown_asset_gives_sentinel common tx meta attached m (c : Clock) :
  tr_mosaics tx = Some attached ->
  m ∈ attached ->
  meta !! helpers_mosaicIdToName (mosaicId m) = None ->
  (forall multiplier, calculateMosaicsFee multiplier meta attached = -1)
  /\ (forall multiplier l,
        Forall (known meta) l -> 1 <= calculateMosaicsFee multiplier meta l)
  /\ exists e c',
       prepareTransfer wallet common tx meta c = (e, c')
       /\ exists recipient amount message,
            custom_of (innermost e)
            = TransferFields recipient amount message (Some attached).
Proof.
  intros Hsome Hin Hmiss.
  split; [intros multiplier; exact (calculateMosaicsFee_unknown _ _ _ _ Hin Hmiss) |].
  split; [intros multiplier l; apply calculateMosaicsFee_known |].
  destruct (prepareTransfer wallet common tx meta c) as [e c'] eqn:Hrun.
  exists e, c'. split; [reflexivity |].
  assert (He : e = built (prepareTransfer wallet common tx meta) c)
    by (unfold built; rewrite Hrun; reflexivity).
  rewrite He, prepareTransfer_innermost, Hsome. run_builder.
  cbn [fst custom_of]. eauto.
Qed.

(** C4.  A transfer with an attachment unknown to the registry and a
    message payload shorter than 64 characters is built with a fee of 0 or
    less. *)
Theorem transfer_fee_below_one common tx meta attached m (c : Clock) :
  tr_mosaics tx = Some attached ->
  m ∈ attached ->
  meta !! helpers_mosaicIdToName (mosaicId m) = None ->
  Js.length (payload (helpers_prepareMessage common tx)) < 64 ->
  fee_of (innermost (built (prepareTransfer wallet common tx meta) c)) <= 0.
Proof.
  intros Hsome Hin Hmiss Hshort.
  rewrite prepareTransfer_fee, Hsome.
  rewrite (calculateMosaicsFee_unknown _ _ _ _ Hin Hmiss).
  pose proof (msgFee_of_short _ Hshort). lia.
Qed.

(** Every other fee is at least one: when [calcMinFee] never goes below 1
    and the attachments of a transfer are all in the registry, each
    transaction an entry point returns has a fee of 1 or more. *)
Lemma fee_at_least_one_when_assets_known (r : Request) (c : Clock) :
  (forall q, 1 <= helpers_calcMinFee q) ->
  assets_known r ->
  Forall (fun e => 1 <= fee_of e) (layers (built (build wallet r) c)).
Proof.
  intros Hmin Hknown.
  destruct r; run_builder; cbn [assets_known] in Hknown;
    repeat match goal with
           | |- context [if ?b then _ else _] =>
               lazymatch b with
               | (_ =? Network_Testnet_id) => fail
               | _ => destruct b eqn:?
               end
           | |- context [match minCosigs ?t with _ => _ end] =>
               destruct (minCosigs t)
           | H : context [match tr_mosaics ?t with _ => _ end] |- _ =>
               destruct (tr_mosaics t)
           end;
    cbn [fst layers]; repeat (constructor; cbn [fee_of]);
    try lia;
    try match goal with
        | |- 1 <= (msgFee_of ?msg + _) * 1000000 =>
            pose proof (msgFee_of_nonneg msg)
        end;
    cbv [Js.number_of_nullable default from_option id];
    try match goal with
        | H : Forall (known ?meta) ?l
          |- context [calculateMosaicsFee ?q ?meta ?l] =>
            pose proof (calculateMosaicsFee_known q meta l H)
        end;
    try match goal with
        | |- context [helpers_calcMinFee ?q] => pose proof (Hmin q)
        end;
    lia.
Qed.

End TransferFee.

Section Modifications.

Context {host : JsHost} {nem : NemUtils}.
Variable wallet : Wallet.

Lemma sort_insert_Permutation {A} (compareFn : A -> A -> Z) (x : A) (l : list A) :
  Js.sort_insert compareFn x l ≡ₚ x :: l.
Proof.
  induction l as [| y rest IH]; cbn [Js.sort_insert]; [reflexivity |].
  destruct (compareFn x y <=? 0); [reflexivity |].
  rewrite IH. apply Permutation_swap.
Qed.

Lemma Array_sort_Permutation {A} (compareFn : A -> A -> Z) (l : list A) :
  Js.Array_sort compareFn l ≡ₚ l.
Proof.
  induction l as [| x rest IH]; cbn [Js.Array_sort]; [reflexivity |].
  rewrite sort_insert_Permutation, IH. reflexivity.
Qed.

Lemma sort_insert_sorted {A} (compareFn : A -> A -> Z) (x : A) (l : list A) :
  Transitive (Js.keeps_order compareFn) ->
  Total (Js.keeps_order compareFn) ->
  StronglySorted (Js.keeps_order compareFn) l ->
  StronglySorted (Js.keeps_order compareFn) (Js.sort_insert compareFn x l).
Proof.
  intros Htrans Htotal Hsorted.
  induction Hsorted as [| y rest Hrest IH Hy]; cbn [Js.sort_insert].
  - repeat constructor.
  - destruct (Z.leb_spec (compareFn x y) 0) as [Hxy | Hyx].
    + constructor; [constructor; assumption |].
      constructor; [exact Hxy |].
      eapply Forall_impl; [exact Hy |].
      intros z Hyz. exact (Htrans x y z Hxy Hyz).
    + constructor; [exact IH |].
      rewrite sort_insert_Permutation. constructor; [| exact Hy].
      destruct (Htotal x y) as [Hle | Hle]; [| exact Hle].
      unfold Js.keeps_order in Hle. lia.
Qed.

Lemma Array_sort_sorted {A} (compareFn : A -> A -> Z) (l : list A) :
  Transitive (Js.keeps_order compareFn) ->
  Total (Js.keeps_order compareFn) ->
  StronglySorted (Js.keeps_order compareFn) (Js.Array_sort compareFn l).
Proof.
  intros Htrans Htotal.
  induction l as [| x rest IH]; cbn [Js.Array_sort]; [constructor |].
  apply sort_insert_sorted; assumption.
Qed.

Lemma sorted_when_many {A} (compareFn : A -> A -> Z) (l : list A) :
  Transitive (Js.keeps_order compareFn) ->
  Total (Js.keeps_order compareFn) ->
  StronglySorted (Js.keeps_order compareFn)
    (if 1 <? Z.of_nat (length l) then Js.Array_sort compareFn l else l).
Proof.
  intros Htrans Htotal. destruct (Z.ltb_spec 1 (Z.of_nat (length l))) as [_ | Hle].
  - apply Array_sort_sorted; assumption.
  - destruct l as [| x [| y l]]; cbn [length] in Hle; try lia.
    + constructor.
    + repeat constructor.
Qed.

Lemma permuted_when_many {A} (compareFn : A -> A -> Z) (l : list A) :
  (if 1 <? Z.of_nat (length l) then Js.Array_sort compareFn l else l) ≡ₚ l.
Proof.
  destruct (1 <? Z.of_nat (length l)); [| reflexivity].
  apply Array_sort_Permutation.
Qed.

Lemma StronglySorted_weaken {A} (R R' : relation A) (P : A -> Prop) (l : list A) :
  (forall a b, P a -> P b -> R a b -> R' a b) ->
  Forall P l -> StronglySorted R l -> StronglySorted R' l.
Proof.
  intros Himpl HP Hsorted. induction Hsorted as [| x l _ IH Hx].
  - constructor.
  - apply Forall_cons in HP as [Px Pl]. constructor; [apply IH, Pl |].
    rewrite Forall_forall in *. intros y Hy. apply Himpl; auto.
Qed.

(** *** The comparator of [_constructAggregateModifications] *)

Lemma keeps_order_canonical (a b : Modification) :
  Js.keeps_order (compare_types_then_addresses wallet) a b
  <-> canonical_order wallet a b.
Proof.
  unfold Js.keeps_order, compare_types_then_addresses, canonical_order,
    Js.or_else.
  destruct (Z.eqb_spec (modificationType a - modificationType b) 0); lia.
Qed.

Lemma canonical_keeps_order_transitive :
  consistent_comparator localeCompare ->
  Transitive (Js.keeps_order (compare_types_then_addresses wallet)).
Proof.
  intros [_ Htrans] a b c Hab Hbc.
  apply keeps_order_canonical in Hab, Hbc. apply keeps_order_canonical.
  unfold canonical_order in *.
  destruct Hab as [Hab | [Hab Lab]], Hbc as [Hbc | [Hbc Lbc]];
    try (left; lia).
  right. split; [lia |]. eapply Htrans; eassumption.
Qed.

Lemma canonical_keeps_order_total :
  consistent_comparator localeCompare ->
  Total (Js.keeps_order (compare_types_then_addresses wallet)).
Proof.
  intros [Hswap _] a b.
  rewrite !keeps_order_canonical. unfold canonical_order.
  destruct (Z.lt_trichotomy (modificationType a) (modificationType b))
    as [Hlt | [Heq | Hgt]]; [left; left; exact Hlt | | right; left; exact Hgt].
  destruct (Z.le_gt_cases
              (localeCompare (address_of wallet a) (address_of wallet b)) 0)
    as [Hle | Hgt].
  - left. right. split; auto.
  - right. right. split; [auto |]. apply Hswap in Hgt. lia.
Qed.

(** *** The comparator of [_constructAggregate] *)

Lemma keeps_order_code_units (a b : Modification) :
  Js.keeps_order (compare_addresses wallet) a b
  <-> String.le (address_of wallet a) (address_of wallet b).
Proof.
  unfold Js.keeps_order, compare_addresses, Js.string_lt, String.le,
    String.ltb, String.leb.
  rewrite (String.compare_antisym (address_of wallet a) (address_of wallet b)).
  destruct (String.compare (address_of wallet b) (address_of wallet a));
    cbn; intuition (try lia; try discriminate; auto).
Qed.

Lemma code_units_keeps_order_transitive :
  Transitive (Js.keeps_order (compare_addresses wallet)).
Proof.
  intros a b c Hab Hbc. apply keeps_order_code_units in Hab, Hbc.
  apply keeps_order_code_units. etrans; eassumption.
Qed.

Lemma code_units_keeps_order_total :
  Total (Js.keeps_order (compare_addresses wallet)).
Proof.
  intros a b. rewrite !keeps_order_code_units. apply total, _.
Qed.

(** *** What the two constructors return *)

Lemma _constructAggregate_modifications tx signatoryArray (c : Clock) :
  modifications_of (built (_constructAggregate wallet tx signatoryArray) c)
  = (if 1 <? Z.of_nat (length (pushed_as_added signatoryArray))
     then Js.Array_sort (compare_addresses wallet)
            (pushed_as_added signatoryArray)
     else pushed_as_added signatoryArray).
Proof. reflexivity. Qed.

Lemma _constructAggregateModifications_modifications
    sender tx signatoryArray (c : Clock) :
  modifications_of
    (innermost
       (built (_constructAggregateModifications wallet sender tx signatoryArray) c))
  = (if 1 <? Z.of_nat (length (pushed_with_type signatoryArray))
     then Js.Array_sort (compare_types_then_addresses wallet)
            (pushed_with_type signatoryArray)
     else pushed_with_type signatoryArray).
Proof.
  run_builder. destruct (minCosigs tx) as [n |]; [destruct (n =? 0) |];
    reflexivity.
Qed.

Lemma pushed_as_added_types signatoryArray :
  Forall (fun m => modificationType m = 1) (pushed_as_added signatoryArray).
Proof. unfold pushed_as_added. apply Forall_map, Forall_true. reflexivity. Qed.

Lemma _constructAggregate_types tx signatoryArray (c : Clock) :
  Forall (fun m => modificationType m = 1)
    (modifications_of (built (_constructAggregate wallet tx signatoryArray) c)).
Proof.
  rewrite _constructAggregate_modifications, permuted_when_many.
  apply pushed_as_added_types.
Qed.

End Modifications.

Section ModificationClaims.

Context {host : JsHost} {nem : NemUtils}.
Variable wallet : Wallet.

(** C5.  When [localeCompare] is a consistent comparator, the modification
    list of the aggregate modification that
    [_constructAggregateModifications] builds holds the entries of the input,
    each as often as given, in the canonical order: any entry has a smaller
    operation code than a later one, or the same code and an address that
    [localeCompare] does not put after; when [localeCompare] orders the
    addresses of the given keys as their code units do, that is the order by
    operation code and then by address, code unit by code unit.  The list
    that [_constructAggregate] builds holds one entry of type 1 for each
    input entry, ordered by address, code unit by code unit. *)
Theorem modifications_are_sorted :
  consistent_comparator localeCompare ->
  (forall sender tx signatoryArray (c : Clock),
      let mods :=
        modifications_of
          (innermost
             (built (_constructAggregateModifications wallet sender tx
                       signatoryArray) c)) in
      mods ≡ₚ pushed_with_type signatoryArray
      /\ StronglySorted (canonical_order wallet) mods
      /\ ((forall k k',
              k ∈ map pubKey signatoryArray ->
              k' ∈ map pubKey signatoryArray ->
              localeCompare (Address_toAddress k (network wallet))
                (Address_toAddress k' (network wallet)) <= 0
              <-> String.le (Address_toAddress k (network wallet))
                    (Address_toAddress k' (network wallet))) ->
          StronglySorted (code_unit_order wallet) mods))
  /\ (forall tx signatoryArray (c : Clock),
        let mods :=
          modifications_of
            (built (_constructAggregate wallet tx signatoryArray) c) in
        mods ≡ₚ pushed_as_added signatoryArray
        /\ StronglySorted (code_unit_order wallet) mods).
Proof.
  intros Hcmp. split.
  - intros sender tx signatoryArray c. cbv zeta.
    rewrite _constructAggregateModifications_modifications.
    assert (Hsorted :
              StronglySorted (canonical_order wallet)
                (if 1 <? Z.of_nat (length (pushed_with_type signatoryArray))
                 then Js.Array_sort (compare_types_then_addresses wallet)
                        (pushed_with_type signatoryArray)
                 else pushed_with_type signatoryArray)).
    { eapply (StronglySorted_weaken _ _ (fun _ => True)).
      + intros a b _ _. apply keeps_order_canonical.
      + apply Forall_true. exact (fun _ => I).
      + apply sorted_when_many;
          [apply canonical_keeps_order_transitive
          | apply canonical_keeps_order_total];
          exact Hcmp. }
    split; [apply permuted_when_many |]. split; [exact Hsorted |].
    intros Hagree.
    apply (StronglySorted_weaken (canonical_order wallet)
             (code_unit_order wallet)
             (fun m => cosignatoryAccount m ∈ map pubKey signatoryArray)).
    + intros a b Ha Hb Hab. unfold canonical_order in Hab.
      destruct Hab as [Hlt | [Heq Hle]]; [left; exact Hlt |].
      right. split; [exact Heq |]. apply (Hagree _ _ Ha Hb), Hle.
    + rewrite permuted_when_many. unfold pushed_with_type.
      apply Forall_forall. intros m Hm.
      apply list_elem_of_fmap in Hm as (s & -> & Hs).
      apply list_elem_of_fmap. exists s. split; [reflexivity | exact Hs].
    + exact Hsorted.
  - intros tx signatoryArray c. cbv zeta. split.
    + rewrite _constructAggregate_modifications. apply permuted_when_many.
    + eapply (StronglySorted_weaken _ _ (fun m => modificationType m = 1)).
      * intros a b Ha Hb Hab. right. split; [congruence |].
        apply keeps_order_code_units, Hab.
      * apply _constructAggregate_types.
      * rewrite _constructAggregate_modifications.
        apply sorted_when_many;
          [apply code_units_keeps_order_transitive
          | apply code_units_keeps_order_total].
Qed.

(** C6, as the code has it.  Nothing checks the cosignatory keys: the
    modification list of the transaction built is the list of the input
    entries in another order, so an entry given twice is there twice, and
    the fee counts every entry. *)
Theorem modifications_keep_every_entry sender tx signatoryArray (c : Clock) :
  let e :=
    innermost
      (built (_constructAggregateModifications wallet sender tx signatoryArray) c) in
  modifications_of e ≡ₚ pushed_with_type signatoryArray
  /\ length (modifications_of e) = length signatoryArray
  /\ exists extra,
       (extra = 0 \/ extra = 6)
       /\ fee_of e
          = (10 + 6 * Z.of_nat (length signatoryArray) + extra) * 1000000.
Proof.
  cbv zeta. rewrite _constructAggregateModifications_modifications.
  split; [apply permuted_when_many |]. split.
  - rewrite permuted_when_many. unfold pushed_with_type. apply length_map.
  - run_builder. destruct (minCosigs tx) as [n |]; [destruct (n =? 0) |];
      cbn [fst innermost fee_of]; [exists 0 | exists 6 | exists 0];
      (split; [auto | lia]).
Qed.

(** C10.  Every entry of the modification list [_constructAggregate]
    builds has [modificationType] 1, whatever type the input entries carry;
    [_constructAggregateModifications] copies the types of its input
    entries, each as often as it is given. *)
Theorem aggregate_types_are_all_add tx signatoryArray (c : Clock) :
  Forall (fun m => modificationType m = 1)
    (modifications_of (built (_constructAggregate wallet tx signatoryArray) c))
  /\ length
       (modifications_of (built (_constructAggregate wallet tx signatoryArray) c))
     = length signatoryArray
  /\ forall sender,
       map modificationType
         (modifications_of
            (innermost
               (built (_constructAggregateModifications wallet sender tx
                         signatoryArray) c)))
       ≡ₚ map sig_type signatoryArray.
Proof.
  split; [apply _constructAggregate_types |]. split.
  - rewrite _constructAggregate_modifications, permuted_when_many.
    unfold pushed_as_added. apply length_map.
  - intros sender.
    rewrite _constructAggregateModifications_modifications, permuted_when_many.
    unfold pushed_with_type. rewrite map_map. reflexivity.
Qed.

End ModificationClaims.

Section Wrapping.

Context {host : JsHost} {nem : NemUtils}.
Variable wallet : Wallet.

(** C2, as the code has it.  In a wrapped construction both headers are
    made with the same [due], but each constructor reads the clock itself:
    the timestamp of the inner header is the first reading and that of the
    wrapper the second.  Each deadline is its own timestamp plus
    [dueMinutes * 60]; the two headers agree when the two readings do. *)
Theorem wrapped_headers_read_the_clock_twice (r : Request) (c : Clock)
    (inner : Entity) :
  otherTrans_of (built (build wallet r) c) = Some inner ->
  let outer := built (build wallet r) c in
  timeStamp (data_of inner) = c 0%nat
  /\ timeStamp (data_of outer) = c 1%nat
  /\ deadline (data_of inner) = c 0%nat + dueMinutes wallet * 60
  /\ deadline (data_of outer) = c 1%nat + dueMinutes wallet * 60
  /\ (c 0%nat = c 1%nat ->
      timeStamp (data_of inner) = timeStamp (data_of outer)
      /\ deadline (data_of inner) = deadline (data_of outer)).
Proof.
  cbv zeta. revert inner.
  destruct r; run_builder; rewrite ?due_is_policy;
    repeat match goal with
           | |- context [if ?b then _ else _] => destruct b eqn:?
           | |- context [match minCosigs ?t with _ => _ end] =>
               destruct (minCosigs t)
           | |- context [match tr_mosaics ?t with _ => _ end] =>
               destruct (tr_mosaics t)
           end;
    cbn [fst otherTrans_of custom_of data_of]; intros inner Hinner;
    try discriminate Hinner;
    injection Hinner as <-;
    cbn [data_of CREATE_DATA timeStamp deadline];
    repeat split; first [reflexivity | congruence].
Qed.

End Wrapping.

Section SmallBusiness.

Context {host : JsHost} {nem : NemUtils}.

(** In general the turn of a small-business attachment sets [fee] to 1 and
    then adds [max(1, fee - supplyRelatedAdjustment)] with the adjustment the
    turns before it left: what it adds is
    [max(1, 1 - supplyRelatedAdjustment)], which is 1 exactly when that
    adjustment is not negative. *)
Theorem small_business_contribution multiplier
    (mosaics : gmap string MosaicDefinitionMetaDataPair)
    (l : list Attachment) (i : nat) (m : Attachment) (st : FeeState) :
  l !! i = Some m ->
  small_business mosaics m ->
  fee_loop multiplier mosaics fee_start (take i l) = Some st ->
  contribution multiplier mosaics l i
  = Some (Z.max 1 (1 - supplyRelatedAdjustment st))
  /\ (contribution multiplier mosaics l i = Some 1
      <-> 0 <= supplyRelatedAdjustment st).
Proof.
  intros Hi Hsmall Hbefore.
  rewrite (contribution_small _ _ _ _ _ _ Hi Hsmall Hbefore).
  split; [reflexivity |]. split.
  - intros [= H]. lia.
  - intros H. f_equal. lia.
Qed.

(** A small-business attachment that comes first, or after small-business
    attachments only, adds exactly 1. *)
Lemma small_business_run multiplier
    (mosaics : gmap string MosaicDefinitionMetaDataPair)
    (l : list Attachment) (st : FeeState) :
  Forall (small_business mosaics) l ->
  0 <= supplyRelatedAdjustment st ->
  exists st',
    fee_loop multiplier mosaics st l = Some st'
    /\ supplyRelatedAdjustment st' = supplyRelatedAdjustment st
    /\ totalFee st' = totalFee st + Z.of_nat (length l).
Proof.
  intros Hall. revert st.
  induction Hall as [| m l Hm _ IH]; intros st Hadj; cbn [fee_loop length].
  - exists st. repeat split; lia.
  - rewrite (fee_iteration_small _ _ _ _ Hm).
    edestruct IH as (st' & -> & Hadj' & Htotal);
      [cbn [supplyRelatedAdjustment]; exact Hadj |].
    exists st'. cbn [supplyRelatedAdjustment totalFee] in *.
    repeat split; lia.
Qed.

(** Within the limits, and with a logarithm that is not negative from 1 on,
    no turn leaves a negative adjustment. *)
Lemma adjustment_not_negative multiplier
    (mosaics : gmap string MosaicDefinitionMetaDataPair)
    (l : list Attachment) (st st' : FeeState) :
  (forall q, (1 <= q)%Q -> (0 <= Math_log q)%Q) ->
  Forall (within_limits mosaics) l ->
  0 <= supplyRelatedAdjustment st ->
  fee_loop multiplier mosaics st l = Some st' ->
  0 <= supplyRelatedAdjustment st'.
Proof.
  intros Hlog Hall. revert st.
  induction Hall as [| m l (pair & Hlook & Hpos & Hmax) _ IH];
    intros st Hadj Hrun; cbn [fee_loop] in Hrun.
  - injection Hrun as <-. exact Hadj.
  - unfold fee_iteration in Hrun. rewrite Hlook in Hrun.
    destruct (_ && _) in Hrun; (eapply IH; [| exact Hrun]);
      cbn [supplyRelatedAdjustment]; [exact Hadj |].
    unfold Js.Math_floor. change 0 with (Qfloor 0). apply Qfloor_resp_le.
    apply Qmult_le_0_compat; [discriminate |].
    apply Hlog. apply Qle_shift_div_l; [exact Hpos |].
    rewrite Qmult_1_l. exact Hmax.
Qed.

(** So within the limits a small-business attachment adds exactly 1,
    wherever it stands in the list. *)
Lemma small_business_contribution_within_limits multiplier
    (mosaics : gmap string MosaicDefinitionMetaDataPair)
    (l : list Attachment) (i : nat) (m : Attachment) (st : FeeState) :
  (forall q, (1 <= q)%Q -> (0 <= Math_log q)%Q) ->
  Forall (within_limits mosaics) (take i l) ->
  l !! i = Some m ->
  small_business mosaics m ->
  fee_loop multiplier mosaics fee_start (take i l) = Some st ->
  contribution multiplier mosaics l i = Some 1.
Proof.
  intros Hlog Hall Hi Hsmall Hbefore.
  rewrite (contribution_small _ _ _ _ _ _ Hi Hsmall Hbefore). f_equal.
  assert (0 <= supplyRelatedAdjustment st).
  { eapply adjustment_not_negative; [exact Hlog | exact Hall | | exact Hbefore].
    reflexivity. }
  lia.
Qed.

End SmallBusiness.

(** ** The builder on the sample environment: facts *)

Lemma sample_localeCompare_le (a b : string) :
  localeCompare (JsHost := Sample.host) a b <= 0 <-> String.le a b.
Proof.
  cbn. unfold Sample.sign_of, String.le, String.leb.
  destruct (String.compare a b); cbn; intuition (try lia; try discriminate).
Qed.

Lemma sample_localeCompare_consistent :
  consistent_comparator (localeCompare (JsHost := Sample.host)).
Proof.
  split.
  - intros a b. cbn. rewrite (String.compare_antisym a b).
    destruct (String.compare b a); cbn; lia.
  - intros a b c. rewrite !sample_localeCompare_le. apply transitivity.
Qed.

(** C1 fails on the code: with an attachment the registry does not have,
    [prepareTransfer] returns a transfer, built on the sentinel. *)
Lemma transfer_with_unknown_asset_is_built :
  built (prepareTransfer (host := Sample.host) (nem := Sample.nem)
           Sample.testnet Sample.common (Run.ghost_transfer false)
           Sample.registry) (frozen 100)
  = mkEntity
      {| type := 0x101; version := -1744830462; signer := "pub-k";
         timeStamp := 100; deadline := 3700 |}
      (-1000000)
      (TransferFields "TALSABCD" (inject_Z 1000000)
         {| msg_type := 1; payload := "" |}
         (Some [Run.attach Sample.ghost 1])).
Proof. vm_compute. reflexivity. Qed.

(** Cosignatories given as "B", "A" are listed as "A", "B". *)
Example aggregate_orders_by_address :
  map cosignatoryAccount
    (modifications_of
       (built (_constructAggregate (nem := Sample.nem)
                 Sample.testnet Run.cosigners
                 [ {| sig_type := 1; pubKey := "B" |};
                   {| sig_type := 1; pubKey := "A" |} ]) (frozen 100)))
  = ["A"; "B"].
Proof. vm_compute. reflexivity. Qed.

(** Types first, then addresses. *)
Example modifications_order_by_type_then_address :
  modifications_of
    (innermost
       (built (_constructAggregateModifications (host := Sample.host)
                 (nem := Sample.nem) Sample.testnet "pub-k" Run.cosigners
                 Run.mixed) (frozen 100)))
  = [ {| modificationType := 1; cosignatoryAccount := "a" |};
      {| modificationType := 1; cosignatoryAccount := "z" |};
      {| modificationType := 2; cosignatoryAccount := "b" |} ].
Proof. vm_compute. reflexivity. Qed.

(** A payload of 64 hex characters costs 2, one of 62 costs 1. *)
Example message_fee_steps :
  messageFee 0 = 0 /\ messageFee 2 = 1 /\ messageFee 62 = 1
  /\ messageFee 64 = 2 /\ messageFee 128 = 3.
Proof. repeat split. Qed.

(** The total depends on the order of the attachments. *)
Example total_fee_depends_on_order :
  calculateMosaicsFee (host := Sample.host) (nem := Sample.nem)
    (inject_Z 1000000) Sample.registry Run.large_then_small = 6
  /\ calculateMosaicsFee (host := Sample.host) (nem := Sample.nem)
       (inject_Z 1000000) Sample.registry (rev Run.large_then_small) = 4.
Proof. split; vm_compute; reflexivity. Qed.

Lemma unknown_asset_gives_sentinel_witness :
  Sample.registry
    !! helpers_mosaicIdToName (NemUtils := Sample.nem) Sample.ghost = None
  /\ (forall multiplier,
        calculateMosaicsFee (host := Sample.host) (nem := Sample.nem)
          multiplier Sample.registry [Run.attach Sample.ghost 1] = -1)
  /\ (forall multiplier l,
        Forall (known (nem := Sample.nem) Sample.registry) l ->
        1 <= calculateMosaicsFee (host := Sample.host) (nem := Sample.nem)
               multiplier Sample.registry l)
  /\ exists e c',
       prepareTransfer (host := Sample.host) (nem := Sample.nem)
         Sample.testnet Sample.common (Run.ghost_transfer false)
         Sample.registry (frozen 100) = (e, c')
       /\ exists recipient amount message,
            custom_of (innermost e)
            = TransferFields recipient amount message
                (Some [Run.attach Sample.ghost 1]).
Proof.
  assert (Hmiss : Sample.registry
                    !! helpers_mosaicIdToName (NemUtils := Sample.nem)
                         Sample.ghost = None)
    by (vm_compute; reflexivity).
  split; [exact Hmiss |].
  apply (unknown_asset_gives_sentinel (host := Sample.host)
           (nem := Sample.nem) Sample.testnet Sample.common
           (Run.ghost_transfer false) Sample.registry
           [Run.attach Sample.ghost 1] (Run.attach Sample.ghost 1)
           (frozen 100)).
  - reflexivity.
  - left.
  - exact Hmiss.
Defined.

Lemma transfer_fee_below_one_witness :
  Js.length
    (payload
       (helpers_prepareMessage (NemUtils := Sample.nem) Sample.common
          (Run.ghost_transfer true))) < 64
  /\ fee_of
       (innermost
          (built
             (prepareTransfer (host := Sample.host) (nem := Sample.nem)
                Sample.testnet Sample.common (Run.ghost_transfer true)
                Sample.registry) (frozen 100))) <= 0.
Proof.
  split; [reflexivity |].
  apply (transfer_fee_below_one (host := Sample.host) (nem := Sample.nem)
           Sample.testnet Sample.common (Run.ghost_transfer true)
           Sample.registry [Run.attach Sample.ghost 1]
           (Run.attach Sample.ghost 1) (frozen 100)).
  - reflexivity.
  - left.
  - vm_compute. reflexivity.
  - reflexivity.
Defined.

Lemma small_business_contribution_witness :
  small_business (host := Sample.host) (nem := Sample.nem) Sample.registry
    (Run.attach Sample.small 10)
  /\ fee_loop (host := Sample.host) (nem := Sample.nem) (inject_Z 1000000)
       Sample.registry fee_start (take 1 Run.large_then_small)
     = Some Run.after_large
  /\ contribution (host := Sample.host) (nem := Sample.nem) (inject_Z 1000000)
       Sample.registry Run.large_then_small 1 = Some 3.
Proof.
  assert (Hsmall : small_business (host := Sample.host) (nem := Sample.nem)
                     Sample.registry (Run.attach Sample.small 10)).
  { exists (Sample.registry_entry 5000 "0").
    split; [vm_compute; reflexivity |]. split; [discriminate | reflexivity]. }
  assert (Hbefore : fee_loop (host := Sample.host) (nem := Sample.nem)
                      (inject_Z 1000000) Sample.registry fee_start
                      (take 1 Run.large_then_small) = Some Run.after_large)
    by (vm_compute; reflexivity).
  split; [exact Hsmall |]. split; [exact Hbefore |].
  exact (proj1 (small_business_contribution (host := Sample.host)
                  (nem := Sample.nem) (inject_Z 1000000) Sample.registry
                  Run.large_then_small 1 (Run.attach Sample.small 10)
                  Run.after_large eq_refl Hsmall Hbefore)).
Defined.

Lemma modifications_are_sorted_witness :
  consistent_comparator (localeCompare (JsHost := Sample.host))
  /\ modifications_of
       (innermost
          (built
             (_constructAggregateModifications (host := Sample.host)
                (nem := Sample.nem) Sample.testnet "pub-k" Run.cosigners
                Run.mixed) (frozen 100)))
     ≡ₚ pushed_with_type Run.mixed
  /\ StronglySorted (canonical_order (host := Sample.host) (nem := Sample.nem)
                       Sample.testnet)
       (modifications_of
          (innermost
             (built
                (_constructAggregateModifications (host := Sample.host)
                   (nem := Sample.nem) Sample.testnet "pub-k" Run.cosigners
                   Run.mixed) (frozen 100))))
  /\ StronglySorted (code_unit_order (nem := Sample.nem) Sample.testnet)
       (modifications_of
          (innermost
             (built
                (_constructAggregateModifications (host := Sample.host)
                   (nem := Sample.nem) Sample.testnet "pub-k" Run.cosigners
                   Run.mixed) (frozen 100)))).
Proof.
  split; [exact sample_localeCompare_consistent |].
  destruct (proj1 (modifications_are_sorted (host := Sample.host)
                     (nem := Sample.nem) Sample.testnet
                     sample_localeCompare_consistent)
              "pub-k" Run.cosigners Run.mixed (frozen 100))
    as (Hperm & Hsorted & Hunits).
  split; [exact Hperm |]. split; [exact Hsorted |].
  apply Hunits. intros k k' _ _. apply sample_localeCompare_le.
Defined.

(** C6 fails on the code: two entries with the same cosignatory key go
    through, and the transaction built lists the key twice. *)
Lemma duplicate_cosignatories_are_built :
  let e :=
    built (_constructAggregateModifications (host := Sample.host)
             (nem := Sample.nem) Sample.testnet "pub-k" Run.cosigners
             Run.twice_the_same) (frozen 100) in
  modifications_of (innermost e)
  = [ {| modificationType := 1; cosignatoryAccount := "cosigner" |};
      {| modificationType := 1; cosignatoryAccount := "cosigner" |} ]
  /\ fee_of (innermost e) = 28000000.
Proof. split; vm_compute; reflexivity. Qed.

(** C2 fails on the code: when the clock moves between the two
    constructors, the wrapper is stamped later than the transfer it wraps. *)
Lemma wrapper_is_stamped_after_inner :
  exists inner,
    otherTrans_of Run.wrapped_transfer = Some inner
    /\ timeStamp (data_of inner) = 100
    /\ timeStamp (data_of Run.wrapped_transfer) = 101
    /\ timeStamp (data_of inner) <> timeStamp (data_of Run.wrapped_transfer)
    /\ deadline (data_of inner) <> deadline (data_of Run.wrapped_transfer).
Proof.
  exists (innermost Run.wrapped_transfer).
  repeat split; try (vm_compute; reflexivity); vm_compute; discriminate.
Qed.

Lemma wrapped_headers_read_the_clock_twice_witness :
  otherTrans_of Run.wrapped_transfer = Some (innermost Run.wrapped_transfer)
  /\ timeStamp (data_of (innermost Run.wrapped_transfer)) = 100
  /\ timeStamp (data_of Run.wrapped_transfer) = 101
  /\ deadline (data_of (innermost Run.wrapped_transfer)) = 100 + 60 * 60
  /\ deadline (data_of Run.wrapped_transfer) = 101 + 60 * 60.
Proof.
  split; [reflexivity |].
  destruct (wrapped_headers_read_the_clock_twice (host := Sample.host)
              (nem := Sample.nem) Sample.testnet
              (Transfer Sample.common (Sample.transfer true "" None)
                 Sample.registry)
              (ticking 100) (innermost Run.wrapped_transfer) eq_refl)
    as (H1 & H2 & H3 & H4 & _).
  split; [exact H1 |]. split; [exact H2 |]. split; [exact H3 | exact H4].
Defined.

Lemma version_is_prefix_or_schema_witness :
  Network_Mainnet_id (NemUtils := Sample.nem)
  <> Network_Testnet_id (NemUtils := Sample.nem)
  /\ networkPrefix (nem := Sample.nem) Sample.testnet = 0x98000000
  /\ Forall (has_version_word (nem := Sample.nem) Sample.testnet)
       (layers Run.wrapped_transfer).
Proof.
  assert (Hd : Network_Mainnet_id (NemUtils := Sample.nem)
               <> Network_Testnet_id (NemUtils := Sample.nem))
    by (intros H; discriminate H).
  split; [exact Hd |].
  destruct (version_is_prefix_or_schema (host := Sample.host)
              (nem := Sample.nem) Sample.testnet Hd)
    as ((_ & Htest & _) & Hall & _).
  split; [exact (Htest eq_refl) |].
  exact (Hall (Transfer Sample.common (Sample.transfer true "" None)
                 Sample.registry) (ticking 100)).
Defined.

(** ** Further properties of the builder *)

Ltac split_builder :=
  repeat match goal with
         | |- context [if ?b then _ else _] =>
             lazymatch b with
             | (_ =? Network_Testnet_id) => fail
             | _ => destruct b eqn:?
             end
         | |- context [match minCosigs ?t with _ => _ end] =>
             destruct (minCosigs t)
         | |- context [match tr_mosaics ?t with _ => _ end] =>
             destruct (tr_mosaics t)
         end.

Section Structure.

Context {host : JsHost} {nem : NemUtils}.
Variable wallet : Wallet.

(** X1.  An entry point wraps what it builds exactly when its [tx] says
    [isMultisig] ([_constructAggregateModifications] always,
    [_constructAggregate] and [prepareSignature] never), and never twice: the
    result is the transaction of the requested type alone, or that
    transaction inside one wrapper of type [MultisigTransaction] and fee
    6000000. *)
Theorem wrapped_once_when_multisig (r : Request) (c : Clock) :
  let e := built (build wallet r) c in
  type (data_of (innermost e)) = kind_of r
  /\ layers e = (if wraps r then [e; innermost e] else [e])
  /\ otherTrans_of e = (if wraps r then Some (innermost e) else None)
  /\ (wraps r = true ->
      type (data_of e) = TransactionTypes_MultisigTransaction
      /\ fee_of e = 6000000).
Proof.
  cbv zeta. destruct r; run_builder; cbn [wraps kind_of]; split_builder;
    cbn [fst innermost layers otherTrans_of custom_of data_of fee_of
         CREATE_DATA type];
    repeat split; intros; try reflexivity; discriminate.
Qed.

(** X2.  Who signs.  The wrapper carries the caller's key (the public key of
    the key pair made from [common.privateKey], or the [senderPublicKey]
    given to [_constructAggregateModifications]) and the wrapped transaction
    the key of the multisig account; a transaction built without wrapper
    carries the caller's key, except the one of [_constructAggregate], which
    carries [tx.multisigPubKey]. *)
Theorem signers_of_the_layers (r : Request) (c : Clock) :
  let e := built (build wallet r) c in
  (wraps r = true ->
   Some (signer (data_of e)) = caller_key r
   /\ Some (signer (data_of (innermost e))) = multisig_key r)
  /\ (wraps r = false ->
      match r with
      | Aggregate tx _ => signer (data_of e) = multisigPubKey tx
      | _ => Some (signer (data_of e)) = caller_key r
      end).
Proof.
  cbv zeta. destruct r; run_builder;
    cbn [wraps caller_key multisig_key own_key]; split_builder;
    cbn [fst innermost data_of CREATE_DATA signer];
    repeat split; intros; try reflexivity; discriminate.
Qed.

(** X3.  An entry point reads the clock once for each transaction it makes,
    the requested one and the wrapper: the readings left afterwards are those
    from the second on, or from the third on when it wraps. *)
Theorem clock_is_read_once_per_layer (r : Request) (c : Clock) (n : nat) :
  (build wallet r c).2 n = c ((if wraps r then 2 else 1) + n)%nat
  /\ length (layers (built (build wallet r) c)) = (if wraps r then 2 else 1)%nat.
Proof.
  destruct r; run_builder; cbn [wraps]; split_builder;
    cbn [fst snd layers length]; split; reflexivity.
Qed.

(** X4.  Every fee is a whole number of XEM: in each transaction an entry
    point returns, wrapper and wrapped, the fee is a multiple of 1000000. *)
Theorem fees_are_whole_xem (r : Request) (c : Clock) :
  Forall (fun e => fee_of e mod 1000000 = 0) (layers (built (build wallet r) c)).
Proof.
  destruct r; run_builder; split_builder; cbn [fst layers];
    repeat (constructor; cbn [fee_of]);
    first [reflexivity | apply Z_mod_mult].
Qed.

(** The two headers of a wrapped construction, in the readings of the clock. *)
Lemma wrapped_headers (r : Request) (c : Clock) (inner : Entity) :
  otherTrans_of (built (build wallet r) c) = Some inner ->
  timeStamp (data_of inner) = c 0%nat
  /\ timeStamp (data_of (built (build wallet r) c)) = c 1%nat
  /\ deadline (data_of inner) = c 0%nat + dueMinutes wallet * 60
  /\ deadline (data_of (built (build wallet r) c))
     = c 1%nat + dueMinutes wallet * 60.
Proof.
  revert inner.
  destruct r; run_builder; rewrite ?due_is_policy;
    repeat match goal with
           | |- context [if ?b then _ else _] => destruct b eqn:?
           | |- context [match minCosigs ?t with _ => _ end] =>
               destruct (minCosigs t)
           | |- context [match tr_mosaics ?t with _ => _ end] =>
               destruct (tr_mosaics t)
           end;
    cbn [fst otherTrans_of custom_of data_of]; intros inner Hinner;
    try discriminate Hinner;
    injection Hinner as <-;
    cbn [data_of CREATE_DATA timeStamp deadline];
    repeat split; reflexivity.
Qed.

(** X5.  When the clock does not run backwards between the two readings, the
    wrapper is stamped no earlier than the transaction it wraps and does not
    expire before it; the two deadlines are apart by the time between the
    readings. *)
Theorem wrapper_does_not_expire_first (r : Request) (c : Clock) (inner : Entity) :
  otherTrans_of (built (build wallet r) c) = Some inner ->
  c 0%nat <= c 1%nat ->
  timeStamp (data_of inner) <= timeStamp (data_of (built (build wallet r) c))
  /\ deadline (data_of inner) <= deadline (data_of (built (build wallet r) c))
  /\ deadline (data_of (built (build wallet r) c)) - deadline (data_of inner)
     = c 1%nat - c 0%nat.
Proof.
  intros Hinner Hclock.
  destruct (wrapped_headers r c inner Hinner) as (-> & -> & -> & ->).
  lia.
Qed.

End Structure.

Section MosaicsFeeMore.

Context {host : JsHost} {nem : NemUtils}.

Implicit Types (mosaics : gmap string MosaicDefinitionMetaDataPair)
  (st : FeeState) (m : Attachment) (l : list Attachment).

Lemma fee_iteration_adds_at_least_one multiplier mosaics st st' m :
  fee_iteration multiplier mosaics st m = Some st' ->
  totalFee st + 1 <= totalFee st'.
Proof.
  unfold fee_iteration. destruct (mosaics !! _); [| discriminate].
  destruct (_ && _); intros [= <-]; cbn [totalFee]; unfold Js.Math_max; lia.
Qed.

Lemma fee_loop_adds_at_least_length multiplier mosaics l st st' :
  fee_loop multiplier mosaics st l = Some st' ->
  totalFee st + Z.of_nat (length l) <= totalFee st'.
Proof.
  revert st. induction l as [| m l IH]; intros st; cbn [fee_loop length].
  - intros [= <-]. lia.
  - destruct (fee_iteration multiplier mosaics st m) as [st1 |] eqn:Hturn;
      [| discriminate].
    intros Hrest. apply IH in Hrest.
    apply fee_iteration_adds_at_least_one in Hturn. lia.
Qed.

(** X6.  With every attached asset in the registry, the fee is at least the
    number of attachments, and at least 1: each attachment adds 1 or more. *)
Theorem mosaics_fee_at_least_count multiplier mosaics l :
  Forall (known mosaics) l ->
  Z.max 1 (Z.of_nat (length l)) <= calculateMosaicsFee multiplier mosaics l.
Proof.
  intros Hall. unfold calculateMosaicsFee.
  destruct (fee_loop_known multiplier mosaics fee_start l Hall) as [st Hrun].
  rewrite Hrun. apply fee_loop_adds_at_least_length in Hrun.
  cbn [fee_start totalFee] in Hrun. unfold Js.Math_max. lia.
Qed.

(** X7.  A list of small-business attachments costs 1 each, whatever the
    quantities attached and the multiplier; the empty list costs 1. *)
Theorem small_business_list_fee multiplier mosaics l :
  Forall (small_business mosaics) l ->
  calculateMosaicsFee multiplier mosaics l = Z.max 1 (Z.of_nat (length l)).
Proof.
  intros Hall. unfold calculateMosaicsFee.
  destruct (small_business_run multiplier mosaics l fee_start Hall)
    as (st & -> & _ & Htotal); [reflexivity |].
  rewrite Htotal. reflexivity.
Qed.

Lemma fee_iteration_own multiplier mosaics st m :
  (forall q, (1 <= q)%Q -> (0 <= Math_log q)%Q) ->
  within_limits mosaics m ->
  0 <= supplyRelatedAdjustment st ->
  exists st',
    fee_iteration multiplier mosaics st m = Some st'
    /\ totalFee st' = totalFee st + own_contribution multiplier mosaics m
    /\ 0 <= supplyRelatedAdjustment st'.
Proof.
  intros Hlog (pair & Hlook & Hpos & Hmax) Hadj.
  unfold own_contribution, fee_iteration. rewrite Hlook.
  destruct (_ && _); eexists; (split; [reflexivity |]);
    cbn [totalFee supplyRelatedAdjustment fee_start]; unfold Js.Math_max.
  - split; [lia | exact Hadj].
  - split; [lia |].
    unfold Js.Math_floor. change 0 with (Qfloor 0) at 1. apply Qfloor_resp_le.
    apply Qmult_le_0_compat; [discriminate |].
    apply Hlog. apply Qle_shift_div_l; [exact Hpos |].
    rewrite Qmult_1_l. exact Hmax.
Qed.

Lemma fee_loop_sums_own multiplier mosaics l st :
  (forall q, (1 <= q)%Q -> (0 <= Math_log q)%Q) ->
  Forall (within_limits mosaics) l ->
  0 <= supplyRelatedAdjustment st ->
  exists st',
    fee_loop multiplier mosaics st l = Some st'
    /\ totalFee st'
       = totalFee st + sum_of (map (own_contribution multiplier mosaics) l).
Proof.
  intros Hlog Hall. revert st.
  induction Hall as [| m l Hm _ IH]; intros st Hadj;
    cbn [fee_loop map sum_of foldr].
  - exists st. split; [reflexivity | lia].
  - destruct (fee_iteration_own multiplier mosaics st m Hlog Hm Hadj)
      as (st1 & -> & Htotal1 & Hadj1).
    destruct (IH st1 Hadj1) as (st' & -> & Htotal).
    exists st'. split; [reflexivity |].
    rewrite Htotal, Htotal1. unfold sum_of. lia.
Qed.

Lemma sum_of_Permutation (l l' : list Z) : l ≡ₚ l' -> sum_of l = sum_of l'.
Proof.
  unfold sum_of. induction 1; cbn [foldr]; try lia.
Qed.

(** X8.  When every attached asset is in the registry within the limits (a
    total quantity that is positive and at most [maxMosaicQuantity]) and the
    logarithm is not negative from 1 on, the fee is the sum of what each
    attachment costs on its own, at least 1, and so does not depend on the
    order of the attachments. *)
Theorem mosaics_fee_order_independent multiplier mosaics l l' :
  (forall q, (1 <= q)%Q -> (0 <= Math_log q)%Q) ->
  Forall (within_limits mosaics) l ->
  l ≡ₚ l' ->
  calculateMosaicsFee multiplier mosaics l
  = Z.max 1 (sum_of (map (own_contribution multiplier mosaics) l))
  /\ calculateMosaicsFee multiplier mosaics l'
     = calculateMosaicsFee multiplier mosaics l.
Proof.
  intros Hlog Hall Hperm.
  assert (Hformula : forall k, Forall (within_limits mosaics) k ->
            calculateMosaicsFee multiplier mosaics k
            = Z.max 1 (sum_of (map (own_contribution multiplier mosaics) k))).
  { intros k Hk. unfold calculateMosaicsFee.
    destruct (fee_loop_sums_own multiplier mosaics k fee_start Hlog Hk)
      as (st & -> & ->); [reflexivity |]. reflexivity. }
  split; [apply Hformula, Hall |].
  rewrite !Hformula by (try rewrite <- Hperm; exact Hall).
  f_equal. apply sum_of_Permutation. rewrite Hperm. reflexivity.
Qed.

(** X9.  The divisibility of a registry entry is read from its properties
    only when exactly one of them is named [divisibility]: with none, or with
    two or more, it is taken to be 0 whatever their values. *)
Theorem divisibility_needs_one_property (pair : MosaicDefinitionMetaDataPair) :
  (Forall (fun p => prop_name p <> "divisibility")
     (properties (mosaicDefinition pair)) ->
   divisibility_of pair = 0)
  /\ (forall p q (before between after : list Property),
        properties (mosaicDefinition pair)
        = before ++ p :: between ++ q :: after ->
        prop_name p = "divisibility" ->
        prop_name q = "divisibility" ->
        divisibility_of pair = 0).
Proof.
  unfold divisibility_of. split.
  - intros Hnone.
    assert (Hempty : filter (fun w => prop_name w = "divisibility")
                       (properties (mosaicDefinition pair)) = []).
    { induction Hnone as [| p l Hp _ IH]; [reflexivity |].
      rewrite filter_cons_False by exact Hp. exact IH. }
    rewrite Hempty. reflexivity.
  - intros p q before between after -> Hp Hq.
    rewrite filter_app, filter_cons_True by exact Hp.
    rewrite filter_app, filter_cons_True by exact Hq.
    destruct (filter _ before) as [| x [| y t]],
             (filter _ between) as [| x' t']; reflexivity.
Qed.

End MosaicsFeeMore.

Section SmallBusinessWithinLimits.

Context {host : JsHost} {nem : NemUtils}.



End SmallBusinessWithinLimits.

Section TransferMore.

Context {host : JsHost} {nem : NemUtils}.
Variable wallet : Wallet.

(** X10.  An attachment array that is there but empty still makes the
    transfer a version-2 one, and its fee is the message fee plus 1, times
    1000000: the amount sent plays no part. *)
Theorem transfer_with_empty_attachments common tx meta (c : Clock) :
  tr_mosaics tx = Some [] ->
  let e := innermost (built (prepareTransfer wallet common tx meta) c) in
  fee_of e = (msgFee_of (helpers_prepareMessage common tx) + 1) * 1000000
  /\ version (data_of e) = CURRENT_NETWORK_VERSION wallet 2.
Proof.
  intros Hempty. cbv zeta. split.
  - rewrite prepareTransfer_fee, Hempty. reflexivity.
  - rewrite prepareTransfer_innermost, Hempty. run_builder.
    cbn [fst data_of CREATE_DATA version].
    apply version_passed_is_kept. auto.
Qed.

(** X11.  The message fee never goes down when the payload gets longer; for a
    payload that is not empty it is [length / 64 + 1], so 64 more characters
    (32 bytes in hex) cost exactly 1 more. *)
Theorem message_fee_grows_with_length (m1 m2 : Message) :
  Js.length (payload m1) <= Js.length (payload m2) ->
  msgFee_of m1 <= msgFee_of m2
  /\ (0 < Js.length (payload m1) ->
      msgFee_of m1 = Js.length (payload m1) / 64 + 1
      /\ (Js.length (payload m2) = Js.length (payload m1) + 64 ->
          msgFee_of m2 = msgFee_of m1 + 1)).
Proof.
  intros Hle. rewrite !msgFee_of_spec. unfold messageFee.
  assert (H1 : 0 <= Js.length (payload m1)) by (unfold Js.length; lia).
  assert (Hdiv : Js.length (payload m1) / 64 <= Js.length (payload m2) / 64)
    by (apply Z.div_le_mono; lia).
  assert (0 <= Js.length (payload m1) / 64) by (apply Z.div_pos; lia).
  split.
  - destruct (Z.eqb_spec (Js.length (payload m1)) 0),
             (Z.eqb_spec (Js.length (payload m2)) 0); lia.
  - intros Hpos.
    destruct (Z.eqb_spec (Js.length (payload m1)) 0); [lia |].
    split; [lia |]. intros ->.
    destruct (Z.eqb_spec (Js.length (payload m1) + 64) 0); [lia |].
    replace (Js.length (payload m1) + 64)
      with (Js.length (payload m1) + 1 * 64) by lia.
    rewrite Z.div_add by lia. lia.
Qed.

End TransferMore.

Section Normalisation.

Context {host : JsHost} {nem : NemUtils}.
Variable wallet : Wallet.

Lemma chars_toUpperCase (s : string) :
  chars (Js.toUpperCase s) = map Js.upper_ascii (chars s).
Proof.
  induction s as [| a s IH]; cbn; [reflexivity |].
  f_equal. exact IH.
Qed.

Lemma chars_remove_dashes (s : string) :
  chars (Js.remove_dashes s) = filter (fun a => ~ is_dash a) (chars s).
Proof.
  induction s as [| a s IH]; cbn [Js.remove_dashes chars String.list_ascii_of_string];
    [reflexivity |].
  destruct (Ascii.eqb_spec a (Ascii.ascii_of_N 45)) as [Heq | Hne].
  - rewrite filter_cons_False by (intros Hn; apply Hn; exact Heq). exact IH.
  - rewrite filter_cons_True by exact Hne.
    cbn [String.list_ascii_of_string]. f_equal. exact IH.
Qed.

Lemma upper_ascii_not_lower (a : Ascii.ascii) :
  ~ is_lower_letter (Js.upper_ascii a).
Proof.
  unfold is_lower_letter, Js.upper_ascii.
  destruct (N.leb_spec 97 (Ascii.N_of_ascii a)),
           (N.leb_spec (Ascii.N_of_ascii a) 122); cbn [andb]; try lia.
  rewrite Ascii.N_ascii_embedding by lia. lia.
Qed.

Lemma normalised_is_clean (s : string) :
  Forall (fun a => ~ is_dash a /\ ~ is_lower_letter a)
    (chars (Js.remove_dashes (Js.toUpperCase s))).
Proof.
  rewrite chars_remove_dashes, chars_toUpperCase.
  apply Forall_forall. intros a Ha.
  apply list_elem_of_filter in Ha as [Hdash Ha].
  split; [exact Hdash |].
  apply list_elem_of_fmap in Ha as (b & -> & _). apply upper_ascii_not_lower.
Qed.

(** X12.  The recipient of a built transfer and the rental fee sink of a
    built namespace provision hold no dash and no lower-case letter (a to z);
    the creation fee sink of a built mosaic definition is the given one
    without its dashes, its letters left as they are. *)
Theorem addresses_are_normalised :
  (forall common tx meta (c : Clock),
      exists r,
        recipient_of (innermost (built (prepareTransfer wallet common tx meta) c))
        = Some r
        /\ Forall (fun a => ~ is_dash a /\ ~ is_lower_letter a) (chars r))
  /\ (forall common tx (c : Clock),
        exists s,
          rentalFeeSink_of (innermost (built (prepareNamespace wallet common tx) c))
          = Some s
          /\ Forall (fun a => ~ is_dash a /\ ~ is_lower_letter a) (chars s))
  /\ (forall common tx (c : Clock),
        exists s,
          creationFeeSink_of
            (innermost (built (prepareMosaicDefinition wallet common tx) c))
          = Some s
          /\ chars s
             = filter (fun a => ~ is_dash a) (chars (md_mosaicFeeSink tx))).
Proof.
  repeat split.
  - intros common tx meta c. rewrite prepareTransfer_innermost. run_builder.
    cbn [fst recipient_of custom_of]. eexists. split; [reflexivity |].
    apply normalised_is_clean.
  - intros common tx c. run_builder. destruct (ns_isMultisig tx);
      cbn [fst innermost rentalFeeSink_of custom_of];
      (eexists; split; [reflexivity | apply normalised_is_clean]).
  - intros common tx c. run_builder. destruct (md_isMultisig tx);
      cbn [fst innermost creationFeeSink_of custom_of];
      (eexists; split; [reflexivity | apply chars_remove_dashes]).
Qed.

End Normalisation.

Section DefinitionRoundTrip.

Context {host : JsHost} {nem : NemUtils}.
Variable wallet : Wallet.

Lemma filter_none {A} (P : A -> Prop) `{forall x, Decision (P x)} (l : list A) :
  Forall (fun x => ~ P x) l -> filter P l = [].
Proof.
  induction 1 as [| x l Hx _ IH]; [reflexivity |].
  rewrite filter_cons_False by exact Hx. exact IH.
Qed.

Lemma filter_unique_key {V} (l : list (string * V)) (k : string) (v : V) :
  NoDup (map fst l) ->
  (k, v) ∈ l ->
  filter (fun kv => kv.1 = k) l = [(k, v)].
Proof.
  induction l as [| [k' v'] l IH]; cbn [map fst]; intros Hnodup Hin.
  - inversion Hin.
  - apply NoDup_cons in Hnodup as [Hfresh Hnodup].
    apply elem_of_cons in Hin as [[= <- <-] | Hin].
    + rewrite filter_cons_True by reflexivity. f_equal.
      apply filter_none, Forall_forall. intros [k2 v2] Hin2 Heq.
      cbn in Heq. subst k2. apply Hfresh.
      apply list_elem_of_fmap. exists (k, v2). split; [reflexivity | exact Hin2].
    + assert (k' <> k).
      { intros ->. apply Hfresh.
        apply list_elem_of_fmap. exists (k, v). split; [reflexivity | exact Hin]. }
      rewrite filter_cons_False by assumption. apply IH; assumption.
Qed.

Lemma filter_named_properties (k : string) (l : list (string * PropertyValue)) :
  filter (fun w => prop_name w = k)
    (map (fun kv => {| prop_name := kv.1;
                       prop_value := PropertyValue_toString kv.2 |}) l)
  = map (fun kv => {| prop_name := kv.1;
                      prop_value := PropertyValue_toString kv.2 |})
      (filter (fun kv => kv.1 = k) l).
Proof.
  induction l as [| [k' v'] l IH]; [reflexivity |]. cbn [map].
  destruct (decide (k' = k)) as [Heq | Hne].
  - rewrite !filter_cons_True by exact Heq. cbn [map]. f_equal. exact IH.
  - rewrite !filter_cons_False by exact Hne. exact IH.
Qed.

(** X13.  From definition to fee.  When the property mapping given to
    [prepareMosaicDefinition] has the key [divisibility] (its keys distinct,
    as those of an object are) and the host reads the string of its value
    back as [d], a registry entry holding the properties of the definition
    built is read by the fee computation with divisibility [d]. *)
Theorem defined_divisibility_is_read_back common tx (c : Clock)
    (v : PropertyValue) (d initialSupply : Z) :
  NoDup (map fst (md_properties tx)) ->
  ("divisibility", v) ∈ md_properties tx ->
  ToInt32_of_string (PropertyValue_toString v) = d ->
  exists def,
    definition_of (innermost (built (prepareMosaicDefinition wallet common tx) c))
    = Some def
    /\ map prop_name (dd_properties def) = map fst (md_properties tx)
    /\ divisibility_of (registered def initialSupply) = d.
Proof.
  intros Hnodup Hin Hread. run_builder.
  destruct (md_isMultisig tx); cbn [fst innermost definition_of custom_of];
    (eexists; split; [reflexivity |]); cbn [dd_properties];
    (split; [rewrite map_map; reflexivity |]);
    unfold divisibility_of, registered;
    cbn [mosaicDefinition properties dd_properties];
    rewrite filter_named_properties,
      (filter_unique_key _ _ _ Hnodup Hin); exact Hread.
Qed.

End DefinitionRoundTrip.

Section CanonicalLists.

Context {host : JsHost} {nem : NemUtils}.
Variable wallet : Wallet.

Lemma sorted_when_many_unique {A} (compareFn : A -> A -> Z) (l l' : list A) :
  Transitive (Js.keeps_order compareFn) ->
  Total (Js.keeps_order compareFn) ->
  (forall a b, a ∈ l -> b ∈ l ->
               compareFn a b <= 0 -> compareFn b a <= 0 -> a = b) ->
  l ≡ₚ l' ->
  (if 1 <? Z.of_nat (length l) then Js.Array_sort compareFn l else l)
  = (if 1 <? Z.of_nat (length l') then Js.Array_sort compareFn l' else l').
Proof.
  intros Htrans Htotal Hanti Hperm.
  apply (StronglySorted_unique_strong (Js.keeps_order compareFn)).
  - intros a b Ha Hb. rewrite permuted_when_many in Ha, Hb.
    rewrite <- Hperm in Hb. apply Hanti; assumption.
  - apply sorted_when_many; assumption.
  - apply sorted_when_many; assumption.
  - rewrite !permuted_when_many. exact Hperm.
Qed.

(** X14.  The list [_constructAggregate] builds does not depend on the order
    in which the cosignatories are given: when no two different keys among
    those given have the same address, two arrays with the same keys, each
    as often, give the same modification list. *)
Theorem aggregate_list_is_canonical tx tx' signatoryArray signatoryArray'
    (c c' : Clock) :
  (forall k k',
      k ∈ map pubKey signatoryArray ->
      k' ∈ map pubKey signatoryArray ->
      Address_toAddress k (network wallet) = Address_toAddress k' (network wallet) ->
      k = k') ->
  map pubKey signatoryArray ≡ₚ map pubKey signatoryArray' ->
  modifications_of (built (_constructAggregate wallet tx signatoryArray) c)
  = modifications_of (built (_constructAggregate wallet tx' signatoryArray') c').
Proof.
  intros Hinj Hperm. rewrite !_constructAggregate_modifications.
  apply sorted_when_many_unique.
  - apply code_units_keeps_order_transitive.
  - apply code_units_keeps_order_total.
  - intros a b Ha Hb Hab Hba.
    pose proof (pushed_as_added_types signatoryArray) as Htypes.
    rewrite Forall_forall in Htypes.
    pose proof (Htypes a Ha) as Hta. pose proof (Htypes b Hb) as Htb.
    apply (keeps_order_code_units wallet) in Hab, Hba.
    assert (Haddr : address_of wallet a = address_of wallet b)
      by (apply (anti_symm String.le); assumption).
    assert (Hkey : forall m, m ∈ pushed_as_added signatoryArray ->
                             cosignatoryAccount m ∈ map pubKey signatoryArray).
    { intros m Hm. unfold pushed_as_added in Hm.
      apply list_elem_of_fmap in Hm as (s & -> & Hs).
      apply list_elem_of_fmap. exists s. split; [reflexivity | exact Hs]. }
    apply (Hinj _ _ (Hkey a Ha) (Hkey b Hb)) in Haddr.
    destruct a, b; cbn in *. congruence.
  - unfold pushed_as_added.
    change (map (fun s => {| modificationType := 1; cosignatoryAccount := pubKey s |})
              signatoryArray
            ≡ₚ map (fun s => {| modificationType := 1;
                                cosignatoryAccount := pubKey s |})
                 signatoryArray').
    rewrite <- !(map_map pubKey
                   (fun k => {| modificationType := 1; cosignatoryAccount := k |})).
    apply Permutation_map, Hperm.
Qed.

(** X15.  Nor does the list [_constructAggregateModifications] builds: with
    a consistent [localeCompare] that is 0 on the addresses of two given keys
    only when the keys are the same, two arrays with the same entries, each
    as often, give the same modification list. *)
Theorem modification_list_is_canonical sender sender' tx tx'
    signatoryArray signatoryArray' (c c' : Clock) :
  consistent_comparator localeCompare ->
  (forall k k',
      k ∈ map pubKey signatoryArray ->
      k' ∈ map pubKey signatoryArray ->
      localeCompare (Address_toAddress k (network wallet))
        (Address_toAddress k' (network wallet)) = 0 ->
      k = k') ->
  signatoryArray ≡ₚ signatoryArray' ->
  modifications_of
    (innermost
       (built (_constructAggregateModifications wallet sender tx signatoryArray) c))
  = modifications_of
      (innermost
         (built (_constructAggregateModifications wallet sender' tx'
                   signatoryArray') c')).
Proof.
  intros Hcmp Hzero Hperm.
  rewrite !_constructAggregateModifications_modifications.
  apply sorted_when_many_unique.
  - apply canonical_keeps_order_transitive, Hcmp.
  - apply canonical_keeps_order_total, Hcmp.
  - intros a b Ha Hb Hab Hba.
    apply (keeps_order_canonical wallet) in Hab, Hba.
    destruct Hcmp as [Hswap _]. unfold canonical_order in Hab, Hba.
    destruct Hab as [Hab | [Htype Hab]], Hba as [Hba | [Htype' Hba]]; try lia.
    assert (Hz : localeCompare (address_of wallet a) (address_of wallet b) = 0).
    { destruct (Z.eq_dec
                  (localeCompare (address_of wallet a) (address_of wallet b)) 0)
        as [Hz | Hnz]; [exact Hz |].
      assert (Hneg : localeCompare (address_of wallet a) (address_of wallet b) < 0)
        by lia.
      apply Hswap in Hneg. lia. }
    assert (Hkey : forall m, m ∈ pushed_with_type signatoryArray ->
                             cosignatoryAccount m ∈ map pubKey signatoryArray).
    { intros m Hm. unfold pushed_with_type in Hm.
      apply list_elem_of_fmap in Hm as (s & -> & Hs).
      apply list_elem_of_fmap. exists s. split; [reflexivity | exact Hs]. }
    apply (Hzero _ _ (Hkey a Ha) (Hkey b Hb)) in Hz.
    destruct a, b; cbn in *. congruence.
  - unfold pushed_with_type. apply Permutation_map, Hperm.
Qed.

End CanonicalLists.

Section AnnouncingFacts.

Context {host : JsHost} {nem : NemUtils} {ext : Collaborators}.

(** X16.  The port a transaction is announced to is chosen by the wallet of
    the [NetworkRequests] object, not by the wallet of the builder: setting
    [wallet.network] of a [Transactions] leaves the address of the announce
    request as it was, and on a freshly constructed [Transactions] that
    address has the host of the default node and the port of the default
    network whatever network the builder is then given. *)
Theorem announce_port_ignores_builder_network (n : Z) (entity : Entity)
    (common : Common) :
  (forall t,
      fc_url (serializeAndAnnounceTransaction (set_network n t) entity common)
      = fc_url (serializeAndAnnounceTransaction t entity common))
  /\ fc_url (serializeAndAnnounceTransaction (set_network n new_Transactions)
               entity common)
     = "http://" +:+ helpers_getHostname Nodes_defaultMainnetNode +:+ ":"
       +:+ pretty (if AppConstants_defaultNetwork =? Network_Mijin_id
                   then AppConstants_defaultMijinPort
                   else AppConstants_defaultNisPort)
       +:+ "/transaction/announce".
Proof. split; [intros t |]; reflexivity. Qed.

(** X17.  [prepareSignature] announces the transaction it has just built, as
    [serializeAndAnnounceTransaction] would, and signs it with the key pair
    whose public key the transaction names as signer. *)
Theorem prepareSignature_announces_what_it_builds (this : Transactions)
    (common : Common) (tx : SignatureTx) (c : Clock) :
  let e := built (prepareSignature (t_wallet this) common tx) c in
  prepareSignature_announce this common tx c
  = (serializeAndAnnounceTransaction this e common,
     (prepareSignature (t_wallet this) common tx c).2)
  /\ signer (data_of e) = own_key common
  /\ exists init,
       fc_init (built (prepareSignature_announce this common tx) c) = Some init
       /\ fi_body init
          = JSON_stringify
              {| ra_data := convert_ua2hex (Serialization_serializeTransaction e);
                 ra_signature :=
                   KeyPair_sign (helpers_fixPrivateKey (privateKey common))
                     (Serialization_serializeTransaction e) |}.
Proof.
  cbv zeta. split; [reflexivity |]. split; [reflexivity |].
  eexists. split; reflexivity.
Qed.

(** X18.  An [id] of 0 is taken for a missing one: [getIncomingTxes] and
    [getNamespaces] then make the request they make without [id]. *)
Theorem zero_id_is_left_out (this : NetworkRequests) (host_name address : string)
    (txHash : QueryValue) :
  getIncomingTxes this host_name address txHash (Some 0)
  = getIncomingTxes this host_name address txHash None
  /\ getNamespaces this host_name (Some 0) = getNamespaces this host_name None.
Proof. split; reflexivity. Qed.

End AnnouncingFacts.

Section ModificationFields.

Context {host : JsHost} {nem : NemUtils}.
Variable wallet : Wallet.

(** X19.  In an aggregate modification the version, the fee and the fields
    go together: it carries [minCosignatories] exactly when its schema
    version is 2, and then pays 6 XEM more than the 10 plus 6 for each entry.
    [_constructAggregate] always builds it so;
    [_constructAggregateModifications] leaves the field out, with schema
    version 1, exactly when [tx.minCosigs] is [null] or 0. *)
Theorem modification_fields_agree tx signatoryArray (c : Clock) :
  modification_agrees wallet (length signatoryArray)
    (built (_constructAggregate wallet tx signatoryArray) c)
  /\ minCosignatories_of (built (_constructAggregate wallet tx signatoryArray) c)
     = Some {| relativeChange := minCosigs tx |}
  /\ forall sender,
       let e :=
         innermost
           (built (_constructAggregateModifications wallet sender tx
                     signatoryArray) c) in
       modification_agrees wallet (length signatoryArray) e
       /\ (minCosignatories_of e = None
           <-> minCosigs tx = None \/ minCosigs tx = Some 0)
       /\ (minCosignatories_of e <> None ->
           minCosignatories_of e = Some {| relativeChange := minCosigs tx |}).
Proof.
  split; [| split].
  - eexists _, _. split; [reflexivity |]. split; [| split].
    + change (length
                (if 1 <? Z.of_nat (length (pushed_as_added signatoryArray))
                 then Js.Array_sort (compare_addresses wallet)
                        (pushed_as_added signatoryArray)
                 else pushed_as_added signatoryArray)
              = length signatoryArray).
      rewrite permuted_when_many. unfold pushed_as_added. apply length_map.
    + cbn [built _constructAggregate bind ret createNEMTimeStamp fst data_of
           CREATE_DATA version].
      rewrite version_passed_is_kept by auto.
      apply version_word_of_schema. auto.
    + reflexivity.
  - reflexivity.
  - intros sender. cbv zeta.
    assert (Hlen : length
                     (if 1 <? Z.of_nat (length (pushed_with_type signatoryArray))
                      then Js.Array_sort (compare_types_then_addresses wallet)
                             (pushed_with_type signatoryArray)
                      else pushed_with_type signatoryArray)
                   = length signatoryArray).
    { rewrite permuted_when_many. unfold pushed_with_type. apply length_map. }
    run_builder. destruct (minCosigs tx) as [k |];
      [destruct (Z.eqb_spec k 0) as [-> | Hk] |];
      cbn [fst innermost minCosignatories_of custom_of];
      (split; [| split]);
      try (eexists _, _; split; [reflexivity |]; split; [exact Hlen |];
           cbn [data_of CREATE_DATA version fee_of];
           rewrite version_passed_is_kept by auto;
           split; [apply version_word_of_schema; auto | lia]).
    + split; auto.
    + intros H; contradiction.
    + split; [discriminate |]. intros [H | [= H]]; [discriminate | contradiction].
    + intros _. reflexivity.
    + split; auto.
    + intros H; contradiction.
Qed.

End ModificationFields.

Section FeeFloor.

Context {host : JsHost} {nem : NemUtils}.
Variable wallet : Wallet.

(** X20.  When [calcMinFee] never goes below 1 and the attachments of a
    transfer are all in the registry, every transaction an entry point
    returns, wrapper and wrapped, pays at least one XEM (1000000). *)
Theorem fee_is_at_least_one_xem (r : Request) (c : Clock) :
  (forall q, 1 <= helpers_calcMinFee q) ->
  assets_known r ->
  Forall (fun e => 1000000 <= fee_of e) (layers (built (build wallet r) c)).
Proof.
  intros Hmin Hknown.
  destruct r; run_builder; cbn [assets_known] in Hknown;
    repeat match goal with
           | |- context [if ?b then _ else _] =>
               lazymatch b with
               | (_ =? Network_Testnet_id) => fail
               | _ => destruct b eqn:?
               end
           | |- context [match minCosigs ?t with _ => _ end] =>
               destruct (minCosigs t)
           | H : context [match tr_mosaics ?t with _ => _ end] |- _ =>
               destruct (tr_mosaics t)
           end;
    cbn [fst layers]; repeat (constructor; cbn [fee_of]);
    try lia;
    try match goal with
        | |- _ <= (msgFee_of ?msg + _) * 1000000 =>
            pose proof (msgFee_of_nonneg msg)
        end;
    cbv [Js.number_of_nullable default from_option id];
    try match goal with
        | H : Forall (known ?meta) ?l
          |- context [calculateMosaicsFee ?q ?meta ?l] =>
            pose proof (calculateMosaicsFee_known q meta l H)
        end;
    try match goal with
        | |- context [helpers_calcMinFee ?q] => pose proof (Hmin q)
        end;
    lia.
Qed.

End FeeFloor.

Section NormalisationAgain.

Context {host : JsHost} {nem : NemUtils}.
Variable wallet : Wallet.

Lemma upper_ascii_idempotent (a : Ascii.ascii) :
  Js.upper_ascii (Js.upper_ascii a) = Js.upper_ascii a.
Proof.
  pose proof (upper_ascii_not_lower a) as Hnot.
  unfold is_lower_letter in Hnot. unfold Js.upper_ascii at 1.
  destruct (N.leb_spec 97 (Ascii.N_of_ascii (Js.upper_ascii a))),
           (N.leb_spec (Ascii.N_of_ascii (Js.upper_ascii a)) 122);
    cbn [andb]; try reflexivity.
  exfalso. apply Hnot. split; assumption.
Qed.

Lemma chars_inj (s t : string) : chars s = chars t -> s = t.
Proof.
  unfold chars. intros H.
  rewrite <- (String.string_of_list_ascii_of_string s),
          <- (String.string_of_list_ascii_of_string t), H.
  reflexivity.
Qed.

Lemma normalise_idempotent (s : string) :
  Js.remove_dashes (Js.toUpperCase (Js.remove_dashes (Js.toUpperCase s)))
  = Js.remove_dashes (Js.toUpperCase s).
Proof.
  apply chars_inj.
  rewrite !chars_remove_dashes, !chars_toUpperCase, !chars_remove_dashes,
    !chars_toUpperCase.
  induction (chars s) as [| a l IH]; [reflexivity |]. cbn [map].
  destruct (decide (is_dash (Js.upper_ascii a))) as [Hd | Hd].
  - rewrite (filter_cons_False _ (Js.upper_ascii a)) by (intros Hn; exact (Hn Hd)).
    exact IH.
  - rewrite (filter_cons_True _ (Js.upper_ascii a)) by exact Hd.
    cbn [map]. rewrite upper_ascii_idempotent.
    rewrite (filter_cons_True _ (Js.upper_ascii a)) by exact Hd.
    f_equal. exact IH.
Qed.

(** X21.  A recipient taken from a built transfer can be given back as it
    is: the transfer built for it has the same recipient. *)
Theorem built_recipient_is_kept common tx meta (c : Clock)
    common' tx' meta' (c' : Clock) (r : string) :
  recipient_of (innermost (built (prepareTransfer wallet common tx meta) c))
  = Some r ->
  tr_recipient tx' = r ->
  recipient_of (innermost (built (prepareTransfer wallet common' tx' meta') c'))
  = Some r.
Proof.
  rewrite !prepareTransfer_innermost. run_builder.
  cbn [fst recipient_of custom_of]. intros [= <-] ->.
  rewrite normalise_idempotent. reflexivity.
Qed.

End NormalisationAgain.

(** ** The further properties on the sample environment *)

(** A builder switched to the Mijin network still announces to the NIS port
    of the default network. *)
Example announce_address_on_sample :
  fc_url
    (serializeAndAnnounceTransaction (nem := Sample.nem)
       (ext := More.collaborators)
       (set_network 96 (new_Transactions (ext := More.collaborators)))
       Run.wrapped_transfer Sample.common)
  = "http://alice6.nem.ninja:7890/transaction/announce".
Proof. vm_compute. reflexivity. Qed.

Lemma sample_log_not_negative (q : Q) :
  (1 <= q)%Q -> (0 <= Math_log (JsHost := Sample.host) q)%Q.
Proof.
  intros Hq. cbn. destruct (Qeq_bool q (1 # 10)) eqn:Heq; [| discriminate].
  apply Qeq_bool_iff in Heq. rewrite Heq in Hq.
  unfold Qle in Hq. cbn in Hq. lia.
Qed.

Lemma sample_localeCompare_zero (a b : string) :
  localeCompare (JsHost := Sample.host) a b = 0 -> a = b.
Proof.
  cbn. destruct (String.compare a b) eqn:Hcmp; cbn; try discriminate.
  intros _. apply String.compare_eq_iff, Hcmp.
Qed.

Lemma chain_registry_within_limits :
  Forall (within_limits (host := Sample.host) (nem := Sample.nem)
            More.chain_registry) More.xem_then_voucher.
Proof.
  repeat constructor.
  - exists (Sample.registry_entry 8999999999 "6").
    split; [vm_compute; reflexivity |]. split; vm_compute; congruence.
  - exists (Sample.registry_entry 5000 "0").
    split; [vm_compute; reflexivity |]. split; vm_compute; congruence.
Qed.

Lemma wrapper_does_not_expire_first_witness :
  otherTrans_of Run.wrapped_transfer = Some (innermost Run.wrapped_transfer)
  /\ ticking 100 0%nat <= ticking 100 1%nat
  /\ timeStamp (data_of (innermost Run.wrapped_transfer))
     <= timeStamp (data_of Run.wrapped_transfer)
  /\ deadline (data_of (innermost Run.wrapped_transfer))
     <= deadline (data_of Run.wrapped_transfer)
  /\ deadline (data_of Run.wrapped_transfer)
     - deadline (data_of (innermost Run.wrapped_transfer)) = 1.
Proof.
  assert (Hclock : ticking 100 0%nat <= ticking 100 1%nat)
    by (intros H; discriminate H).
  split; [reflexivity |]. split; [exact Hclock |].
  exact (wrapper_does_not_expire_first (host := Sample.host) (nem := Sample.nem)
           Sample.testnet
           (Transfer Sample.common (Sample.transfer true "" None) Sample.registry)
           (ticking 100) (innermost Run.wrapped_transfer) eq_refl Hclock).
Defined.

Lemma mosaics_fee_at_least_count_witness :
  Forall (known (nem := Sample.nem) Sample.registry) Run.large_then_small
  /\ 2 <= calculateMosaicsFee (host := Sample.host) (nem := Sample.nem)
            (inject_Z 1000000) Sample.registry Run.large_then_small.
Proof.
  assert (Hknown : Forall (known (nem := Sample.nem) Sample.registry)
                     Run.large_then_small).
  { repeat constructor; eexists; vm_compute; reflexivity. }
  split; [exact Hknown |].
  exact (mosaics_fee_at_least_count (host := Sample.host) (nem := Sample.nem)
           (inject_Z 1000000) Sample.registry Run.large_then_small Hknown).
Defined.

Lemma small_business_list_fee_witness :
  Forall (small_business (host := Sample.host) (nem := Sample.nem)
            Sample.registry)
    [Run.attach Sample.small 10; Run.attach Sample.small 700]
  /\ calculateMosaicsFee (host := Sample.host) (nem := Sample.nem)
       (inject_Z 1000000) Sample.registry
       [Run.attach Sample.small 10; Run.attach Sample.small 700] = 2.
Proof.
  assert (Hsmall : Forall (small_business (host := Sample.host)
                             (nem := Sample.nem) Sample.registry)
                     [Run.attach Sample.small 10; Run.attach Sample.small 700]).
  { repeat constructor; exists (Sample.registry_entry 5000 "0");
      (split; [vm_compute; reflexivity |]);
      (split; [discriminate | reflexivity]). }
  split; [exact Hsmall |].
  exact (small_business_list_fee (host := Sample.host) (nem := Sample.nem)
           (inject_Z 1000000) Sample.registry _ Hsmall).
Defined.

Lemma mosaics_fee_order_independent_witness :
  More.xem_then_voucher ≡ₚ More.voucher_then_xem
  /\ calculateMosaicsFee (host := Sample.host) (nem := Sample.nem)
       (inject_Z 1000000) More.chain_registry More.voucher_then_xem
     = calculateMosaicsFee (host := Sample.host) (nem := Sample.nem)
         (inject_Z 1000000) More.chain_registry More.xem_then_voucher.
Proof.
  assert (Hperm : More.xem_then_voucher ≡ₚ More.voucher_then_xem)
    by apply Permutation_swap.
  split; [exact Hperm |].
  exact (proj2 (mosaics_fee_order_independent (host := Sample.host)
                  (nem := Sample.nem) (inject_Z 1000000) More.chain_registry
                  More.xem_then_voucher More.voucher_then_xem
                  sample_log_not_negative chain_registry_within_limits Hperm)).
Defined.

Lemma transfer_with_empty_attachments_witness :
  tr_mosaics (Sample.transfer false "abcd" (Some [])) = Some []
  /\ fee_of
       (innermost
          (built
             (prepareTransfer (host := Sample.host) (nem := Sample.nem)
                Sample.testnet Sample.common
                (Sample.transfer false "abcd" (Some [])) Sample.registry)
             (frozen 100))) = 2000000.
Proof.
  split; [reflexivity |].
  exact (proj1 (transfer_with_empty_attachments (host := Sample.host)
                  (nem := Sample.nem) Sample.testnet Sample.common
                  (Sample.transfer false "abcd" (Some [])) Sample.registry
                  (frozen 100) eq_refl)).
Defined.

Lemma message_fee_grows_with_length_witness :
  Js.length (payload {| msg_type := 1; payload := "ab" |})
  <= Js.length (payload {| msg_type := 1; payload := "abcdef" |})
  /\ msgFee_of {| msg_type := 1; payload := "ab" |}
     <= msgFee_of {| msg_type := 1; payload := "abcdef" |}.
Proof.
  assert (Hle : Js.length (payload {| msg_type := 1; payload := "ab" |})
                <= Js.length (payload {| msg_type := 1; payload := "abcdef" |}))
    by (intros H; discriminate H).
  split; [exact Hle |].
  exact (proj1 (message_fee_grows_with_length
                  {| msg_type := 1; payload := "ab" |}
                  {| msg_type := 1; payload := "abcdef" |} Hle)).
Defined.

Lemma defined_divisibility_is_read_back_witness :
  ToInt32_of_string (JsHost := Sample.host)
    (PropertyValue_toString (PNumber 3)) = 3
  /\ exists def,
       definition_of
         (innermost
            (built (prepareMosaicDefinition (nem := Sample.nem) Sample.testnet
                      Sample.common More.new_mosaic) (frozen 100)))
       = Some def
       /\ map prop_name (dd_properties def)
          = map fst (md_properties More.new_mosaic)
       /\ divisibility_of (host := Sample.host) (registered def 1000) = 3.
Proof.
  assert (Hread : ToInt32_of_string (JsHost := Sample.host)
                    (PropertyValue_toString (PNumber 3)) = 3)
    by (vm_compute; reflexivity).
  split; [exact Hread |].
  apply (defined_divisibility_is_read_back (host := Sample.host)
           (nem := Sample.nem) Sample.testnet Sample.common More.new_mosaic
           (frozen 100) (PNumber 3) 3 1000).
  - refine (bool_decide_unpack _ _). vm_compute. exact I.
  - right. left.
  - exact Hread.
Defined.

Lemma aggregate_list_is_canonical_witness :
  map pubKey Run.mixed ≡ₚ map pubKey (rev Run.mixed)
  /\ modifications_of
       (built (_constructAggregate (nem := Sample.nem) Sample.testnet
                 Run.cosigners Run.mixed) (frozen 100))
     = modifications_of
         (built (_constructAggregate (nem := Sample.nem) Sample.testnet
                   Run.cosigners (rev Run.mixed)) (ticking 7)).
Proof.
  assert (Hperm : map pubKey Run.mixed ≡ₚ map pubKey (rev Run.mixed))
    by (apply Permutation_map, Permutation_rev).
  split; [exact Hperm |].
  exact (aggregate_list_is_canonical (nem := Sample.nem) Sample.testnet
           Run.cosigners Run.cosigners Run.mixed (rev Run.mixed)
           (frozen 100) (ticking 7) (fun k k' _ _ H => H) Hperm).
Defined.

Lemma modification_list_is_canonical_witness :
  Run.mixed ≡ₚ rev Run.mixed
  /\ modifications_of
       (innermost
          (built (_constructAggregateModifications (host := Sample.host)
                    (nem := Sample.nem) Sample.testnet "pub-k" Run.cosigners
                    Run.mixed) (frozen 100)))
     = modifications_of
         (innermost
            (built (_constructAggregateModifications (host := Sample.host)
                      (nem := Sample.nem) Sample.testnet "pub-k" Run.cosigners
                      (rev Run.mixed)) (ticking 7))).
Proof.
  split; [apply Permutation_rev |].
  exact (modification_list_is_canonical (host := Sample.host)
           (nem := Sample.nem) Sample.testnet "pub-k" "pub-k" Run.cosigners
           Run.cosigners Run.mixed (rev Run.mixed) (frozen 100) (ticking 7)
           sample_localeCompare_consistent
           (fun k k' _ _ H => sample_localeCompare_zero k k' H)
           (Permutation_rev Run.mixed)).
Defined.

Lemma fee_is_at_least_one_xem_witness :
  (forall q, 1 <= helpers_calcMinFee (NemUtils := Sample.nem) q)
  /\ Forall (fun e => 1000000 <= fee_of e) (layers Run.wrapped_transfer).
Proof.
  assert (Hmin : forall q, 1 <= helpers_calcMinFee (NemUtils := Sample.nem) q).
  { intros q. cbn. unfold Sample.calcMinFee.
    destruct (Qle_bool _ _) eqn:Hq.
    - apply Qle_bool_iff in Hq.
      assert (1 <= Qfloor (q / inject_Z 10000)).
      { change 1 with (Qfloor (inject_Z 1)). apply Qfloor_resp_le, Hq. }
      destruct (25 <? Qfloor (q / inject_Z 10000)); lia.
    - reflexivity. }
  split; [exact Hmin |].
  exact (fee_is_at_least_one_xem (host := Sample.host) (nem := Sample.nem)
           Sample.testnet
           (Transfer Sample.common (Sample.transfer true "" None) Sample.registry)
           (ticking 100) Hmin I).
Defined.

Lemma built_recipient_is_kept_witness :
  recipient_of
    (innermost
       (built (prepareTransfer (host := Sample.host) (nem := Sample.nem)
                 Sample.mainnet Sample.common (Sample.transfer false "" None)
                 Sample.registry) (frozen 100))) = Some "TALSABCD"
  /\ recipient_of
       (innermost
          (built (prepareTransfer (host := Sample.host) (nem := Sample.nem)
                    Sample.mainnet Sample.common More.second_transfer
                    Sample.registry) (ticking 5))) = Some "TALSABCD".
Proof.
  assert (Hfirst :
            recipient_of
              (innermost
                 (built (prepareTransfer (host := Sample.host)
                           (nem := Sample.nem) Sample.mainnet Sample.common
                           (Sample.transfer false "" None) Sample.registry)
                    (frozen 100))) = Some "TALSABCD")
    by (vm_compute; reflexivity).
  split; [exact Hfirst |].
  exact (built_recipient_is_kept (host := Sample.host) (nem := Sample.nem)
           Sample.mainnet Sample.common (Sample.transfer false "" None)
           Sample.registry (frozen 100) Sample.common More.second_transfer
           Sample.registry (ticking 5) "TALSABCD" Hfirst eq_refl).
Defined.

